(** * website-monitor: the check-orchestration engine

    A shallow embedding of the generic monitoring engine (the [Monitor]
    interface, the SQLite store with its two tables, the ntfy dispatcher,
    [runCheck], [runAllChecks]) and of the registry of monitors that it
    imports from [./monitors], followed by the properties of the engine.
    After the engine come [main], the checks of the two monitors (the page
    of sportivo, the months of the bookero API) and the two single-target
    scripts that the engine replaced, each compared with the engine.

    Conventions of the embedding.
    - SQLite's [datetime('now')] text timestamps (second resolution,
      compared as text, which for this fixed format is chronological order)
      are integers counting seconds; ['-15 minutes'] is [900] seconds.
    - [INTEGER] columns are [Z]; a JavaScript truthiness test on them is
      [truthy].  Row ids are unbounded (SQLite's are 64-bit; one row a
      minute does not reach the bound).
    - [log] is modelled without the time stamp it prefixes to each line.
    - What the outside world answers during one call of [runCheck] (the
      outcome of [monitor.check()], the responses of ntfy.sh, the clock of
      the store) is the [Tick] handed to that call.
    - [monitor.notification] is pure formatting and does not throw. *)

From Stdlib Require Import ZArith Lia.
From stdpp Require Import gmap strings list fin_maps.

Local Open Scope Z_scope.

(** ** JavaScript values *)

(** [!x] on a number read from an [INTEGER NOT NULL] column. *)
Definition truthy (n : Z) : bool := negb (n =? 0).

(** [!t] on [string | undefined]: [undefined] and the empty string are falsy. *)
Definition truthyStr (t : option string) : bool :=
  match t with
  | None => false
  | Some s => negb (String.eqb s EmptyString)
  end.

(** [topic ?? NTFY_TOPIC] *)
Definition nullish {A} (x y : option A) : option A :=
  match x with
  | Some _ => x
  | None => y
  end.

(** ** The store: tables [checks] and [error_streak] *)

(** One row of
    [checks (id INTEGER PRIMARY KEY AUTOINCREMENT, monitor, state,
             checked_at DEFAULT datetime('now'), notified DEFAULT 0)]. *)
Record CheckRow := mkCheckRow {
  row_id : Z;
  row_monitor : string;
  row_state : string;
  row_checked_at : Z;
  row_notified : Z
}.

(** One row of [error_streak (monitor TEXT PRIMARY KEY, started_at,
    notified DEFAULT 0)], without its key. *)
Record StreakRow := mkStreakRow {
  started_at : Z;
  streak_notified : Z
}.

(** The database: [checks] in insertion order; [error_streak] keyed by its
    primary key. *)
Record Database := mkDatabase {
  checks : list CheckRow;
  error_streak : gmap string StreakRow
}.

Definition emptyDb : Database := mkDatabase [] ∅.

#[global] Instance CheckRow_eq_dec : EqDecision CheckRow.
Proof. solve_decision. Defined.

#[global] Instance StreakRow_eq_dec : EqDecision StreakRow.
Proof. solve_decision. Defined.

(** [WHERE monitor = ?] on [checks]. *)
Definition rowsOf (monitorName : string) (t : list CheckRow) : list CheckRow :=
  filter (λ r, row_monitor r = monitorName) t.

(** [ORDER BY id DESC LIMIT 1]: the row with the largest id, if any. *)
Fixpoint maxById (rows : list CheckRow) : option CheckRow :=
  match rows with
  | [] => None
  | r :: rs =>
      match maxById rs with
      | None => Some r
      | Some r' => if row_id r' <? row_id r then Some r else Some r'
      end
  end.

(** [getLastState]:
    [SELECT state FROM checks WHERE monitor = ? ORDER BY id DESC LIMIT 1],
    then [row?.state ?? null]. *)
Definition getLastState (db : Database) (monitorName : string) : option string :=
  row_state <$> maxById (rowsOf monitorName (checks db)).

(** The id an [AUTOINCREMENT] column gives the next row: one more than the
    largest id of the table ([1] for an empty table).  Rows of [checks] are
    never deleted, so the largest id present is the largest id ever used. *)
Definition nextId (t : list CheckRow) : Z :=
  1 + foldr (λ r acc, Z.max (row_id r) acc) 0 t.

(** [saveState]:
    [INSERT INTO checks (monitor, state, notified) VALUES (?, ?, ?)] with
    [notified ? 1 : 0]; [checked_at] takes its default, the clock of the
    store. *)
Definition saveState (now : Z) (db : Database) (monitorName state : string)
    (notified : bool) : Database :=
  mkDatabase
    (checks db ++
       [mkCheckRow (nextId (checks db)) monitorName state now
          (if notified then 1 else 0)])
    (error_streak db).

(** [SELECT notified FROM error_streak WHERE monitor = ?] and
    [SELECT started_at, notified FROM error_streak WHERE monitor = ?]. *)
Definition selectStreak (db : Database) (monitorName : string) : option StreakRow :=
  error_streak db !! monitorName.

(** [DELETE FROM error_streak WHERE monitor = ?] *)
Definition deleteStreak (db : Database) (monitorName : string) : Database :=
  mkDatabase (checks db) (delete monitorName (error_streak db)).

(** [INSERT INTO error_streak (monitor, started_at) VALUES (?, datetime('now'))];
    [notified] takes its default [0].  The statement is only reached when
    the key is absent. *)
Definition insertStreak (now : Z) (db : Database) (monitorName : string) : Database :=
  mkDatabase (checks db) (<[monitorName := mkStreakRow now 0]> (error_streak db)).

(** [UPDATE error_streak SET notified = 1 WHERE monitor = ?] *)
Definition markStreakNotified (db : Database) (monitorName : string) : Database :=
  mkDatabase (checks db)
    (alter (λ s, mkStreakRow (started_at s) 1) monitorName (error_streak db)).

(** [SELECT started_at <= datetime('now', '-15 minutes') AS past
     FROM error_streak WHERE monitor = ?] *)
Definition selectOverdue (now : Z) (db : Database) (monitorName : string) : option Z :=
  (λ s, if started_at s <=? now - 900 then 1 else 0) <$> error_streak db !! monitorName.

(** ** Monitors, notifications and the outside world *)

Record CheckResult := mkCheckResult {
  state : string;
  detail : string
}.

(** What [monitor.notification] returns. *)
Record Notification := mkNotification {
  title : string;
  message : string;
  priority : Z;
  tags : list string
}.

(** The argument of [sendNotification]: a notification and its [click] URL. *)
Record Payload := mkPayload {
  body : Notification;
  click : string
}.

(** The [Monitor] interface.  [check()] talks to the network: what it
    answers in one call is the [probe] of the [Tick] of that call;
    [notification] is pure formatting. *)
Record Monitor := mkMonitor {
  name : string;
  url : string;
  notification : CheckResult → option string → Notification
}.

(** [await monitor.check()]: a result, or an exception, of which the handler
    of [runCheck] keeps the message
    ([error instanceof Error ? error.message : String(error)]). *)
Inductive ProbeOutcome :=
  | Returned (result : CheckResult)
  | Failed (errorMsg : string).

(** [await fetch("https://ntfy.sh", ...)]: a response with its [ok] flag and
    its status line ([status] and [statusText]), or a network error. *)
Inductive FetchOutcome :=
  | Responded (ok : bool) (statusLine : string)
  | Rejected (errorMsg : string).

(** The outside world during one call of [runCheck]: the outcome of the
    probe, the answer of ntfy.sh to the i-th POST of the call, and the clock
    of the store (each path through [runCheck] runs at most one statement
    that reads [datetime('now')]). *)
Record Tick := mkTick {
  probe : ProbeOutcome;
  ntfy : nat → FetchOutcome;
  now : Z
}.

(** [process.env.NTFY_TOPIC] and [process.env.NTFY_DEBUG_TOPIC], read once
    when the module is loaded. *)
Record Config := mkConfig {
  NTFY_TOPIC : option string;
  NTFY_DEBUG_TOPIC : option string
}.

(** The kinds of notification, one per call site of the dispatcher. *)
Inductive Kind :=
  | FirstObservation
  | StateChanged
  | DebugPing
  | ErrorThreshold
  | Recovery.

#[global] Instance Kind_eq_dec : EqDecision Kind.
Proof. solve_decision. Defined.

(** What one call leaves behind outside the store: console lines (without
    their time stamp), the POSTs to ntfy.sh with the answer each got, and a
    mark each time [runCheck] reaches a call site of the dispatcher. *)
Inductive Effect :=
  | Log (monitorName msg : string)
  | Post (topic : string) (p : Payload) (r : FetchOutcome)
  | Event (k : Kind) (monitorName : string).

Definition dquote : string := String (Ascii.ascii_of_nat 34) EmptyString.

(** ** Asynchronous code: state, output and exceptions *)

(** How a JavaScript call ends: normally, or with a thrown error (kept as
    its message). *)
Inductive Completion (A : Type) :=
  | Normal (a : A)
  | Abrupt (errorMsg : string).
Arguments Normal {A} a.
Arguments Abrupt {A} errorMsg.

(** What a call of [runCheck] changes: the database, the effects produced so
    far (oldest first) and the number of POSTs made so far. *)
Record World := mkWorld {
  w_db : Database;
  w_out : list Effect;
  w_sent : nat
}.

Definition Async (A : Type) : Type := World → Completion A * World.

#[global] Instance Async_ret : MRet Async := λ A a w, (Normal a, w).

#[global] Instance Async_bind : MBind Async := λ A B f m w,
  match m w with
  | (Normal a, w') => f a w'
  | (Abrupt e, w') => (Abrupt e, w')
  end.

(** [throw new Error(e)] *)
Definition throw {A} (e : string) : Async A := λ w, (Abrupt e, w).

(** [try { body } catch (error) { handler }] *)
Definition tryCatch {A} (body : Async A) (handler : string → Async A) : Async A :=
  λ w,
    match body w with
    | (Normal a, w') => (Normal a, w')
    | (Abrupt e, w') => handler e w'
    end.

(** [db.query(...).get(...)] *)
Definition query {A} (q : Database → A) : Async A :=
  λ w, (Normal (q (w_db w)), w).

(** [db.run(...)] *)
Definition run (stmt : Database → Database) : Async unit :=
  λ w, (Normal tt, mkWorld (stmt (w_db w)) (w_out w) (w_sent w)).

(** Append one effect to the output. *)
Definition tell (e : Effect) : Async unit :=
  λ w, (Normal tt, mkWorld (w_db w) (w_out w ++ [e]) (w_sent w)).

(** [log(monitor, message)] *)
Definition log (monitorName msg : string) : Async unit :=
  tell (Log monitorName msg).

(** The mark left where [runCheck] calls the dispatcher for a notification of
    kind [k]. *)
Definition emit (k : Kind) (monitorName : string) : Async unit :=
  tell (Event k monitorName).

(** [await fetch("https://ntfy.sh", { method: "POST", ... })] with body
    [{ topic, ...payload }]: the POST is recorded with its answer; a network
    error is thrown. *)
Definition fetch (tk : Tick) (topic : string) (p : Payload) : Async (bool * string) :=
  λ w,
    let r := ntfy tk (w_sent w) in
    let w' := mkWorld (w_db w) (w_out w ++ [Post topic p r]) (S (w_sent w)) in
    match r with
    | Responded ok statusLine => (Normal (ok, statusLine), w')
    | Rejected e => (Abrupt e, w')
    end.

(** [await monitor.check()] *)
Definition check (tk : Tick) : Async CheckResult :=
  match probe tk with
  | Returned result => mret result
  | Failed e => throw e
  end.

(** [x?.f] read for its truthiness: [undefined] is falsy. *)
Definition optTruthy (o : option Z) : bool :=
  match o with
  | Some n => truthy n
  | None => false
  end.

(** ** The texts of the engine *)

(** The console lines and the notification texts of the engine. *)
Module Text.
Definition startingCheck : string := "Starting check...".
Definition currentState : string := "Current state: ".
Definition recovering : string := "Recovering from error streak...".
Definition previousState : string := "Previous state: ".
Definition firstRun : string := "(first run)".
Definition firstRunSending : string := "First run, sending initial notification...".
Definition stateChanged : string := "STATE CHANGED! Sending notification...".
Definition stateUnchanged : string := "State unchanged, no notification needed".
Definition checkComplete : string := "Check complete.".
Definition error : string := "ERROR: ".
Definition streakStarted : string := "Error streak started.".
Definition thresholdReached : string :=
  "15 minutes of errors, sending error notification...".
Definition notYet : string := "Error streak ongoing, not yet 15 minutes.".
Definition alreadySent : string :=
  "Error streak ongoing, notification already sent.".
Definition errorSent : string := "Error notification sent!".
Definition recoverySent : string := "Recovery notification sent!".
Definition ntfyError : string := "ntfy error: ".
Definition unavailable : string := ": niedostępne!".
Definition monitorQuote : string := "Monitor " +:+ dquote.
Definition silentFor15 : string :=
  dquote +:+ " nie odpowiada od 15 minut. Ostatni błąd: ".
Definition worksAgain : string := ": znów działa".
Definition answersAgain : string := dquote +:+ " znów odpowiada po przerwie.".
End Text.

(** ** The dispatcher *)

(** The notification of [notifyError]. *)
Definition errorPayload (monitorName errorMessage : string) : Payload :=
  mkPayload
    (mkNotification
       (monitorName +:+ Text.unavailable)
       (Text.monitorQuote +:+ monitorName +:+ Text.silentFor15 +:+ errorMessage)
       4 ["rotating_light"])
    EmptyString.

(** The notification of [notifyRecovery]. *)
Definition recoveryPayload (monitor : Monitor) : Payload :=
  mkPayload
    (mkNotification
       (name monitor +:+ Text.worksAgain)
       (Text.monitorQuote +:+ name monitor +:+ Text.answersAgain)
       3 ["white_check_mark"])
    (url monitor).

Section Engine.

Variable cfg : Config.
Variable tk : Tick.

Definition sendNotification (payload : Payload) (topic : option string) : Async unit :=
  let t := nullish topic (NTFY_TOPIC cfg) in
  if negb (truthyStr t) then mret tt
  else
    response ← fetch tk (default EmptyString t) payload;
    if negb (fst response) then throw (Text.ntfyError +:+ snd response)
    else mret tt.

Definition notifyError (monitorName errorMessage : string) : Async unit :=
  if negb (truthyStr (NTFY_TOPIC cfg)) then mret tt
  else
    sendNotification (errorPayload monitorName errorMessage) None;;
    log monitorName Text.errorSent.

Definition notifyRecovery (monitor : Monitor) : Async unit :=
  if negb (truthyStr (NTFY_TOPIC cfg)) then mret tt
  else
    sendNotification (recoveryPayload monitor) None;;
    log (name monitor) Text.recoverySent.

(** ** One check of one monitor *)

(** The [try] block of [runCheck]. *)
Definition checkAndCompare (monitor : Monitor) : Async unit :=
  result ← check tk;
  log (name monitor) (Text.currentState +:+ state result);;
  streak ← query (λ db, selectStreak db (name monitor));
  (if optTruthy (streak_notified <$> streak) then
     log (name monitor) Text.recovering;;
     emit Recovery (name monitor);;
     notifyRecovery monitor
   else mret tt);;
  run (λ db, deleteStreak db (name monitor));;
  previousState ← query (λ db, getLastState db (name monitor));
  log (name monitor)
    (Text.previousState +:+ default Text.firstRun previousState);;
  match previousState with
  | None =>
      log (name monitor) Text.firstRunSending;;
      emit FirstObservation (name monitor);;
      sendNotification
        (mkPayload (notification monitor result None) (url monitor)) None;;
      run (λ db, saveState (now tk) db (name monitor) (state result) true)
  | Some previous =>
      if bool_decide (state result ≠ previous) then
        log (name monitor) Text.stateChanged;;
        emit StateChanged (name monitor);;
        sendNotification
          (mkPayload (notification monitor result previousState) (url monitor))
          None;;
        run (λ db, saveState (now tk) db (name monitor) (state result) true)
      else
        log (name monitor) Text.stateUnchanged;;
        (if truthyStr (NTFY_DEBUG_TOPIC cfg) then
           emit DebugPing (name monitor);;
           sendNotification
             (mkPayload (notification monitor result previousState) (url monitor))
             (NTFY_DEBUG_TOPIC cfg)
         else mret tt);;
        run (λ db, saveState (now tk) db (name monitor) (state result) false)
  end;;
  log (name monitor) Text.checkComplete.

(** The [catch] block of [runCheck]. *)
Definition trackError (monitor : Monitor) (errorMsg : string) : Async unit :=
  log (name monitor) (Text.error +:+ errorMsg);;
  streak ← query (λ db, selectStreak db (name monitor));
  match streak with
  | None =>
      run (λ db, insertStreak (now tk) db (name monitor));;
      log (name monitor) Text.streakStarted
  | Some s =>
      if negb (truthy (streak_notified s)) then
        overdue ← query (λ db, selectOverdue (now tk) db (name monitor));
        if optTruthy overdue then
          log (name monitor) Text.thresholdReached;;
          emit ErrorThreshold (name monitor);;
          notifyError (name monitor) errorMsg;;
          run (λ db, markStreakNotified db (name monitor))
        else
          log (name monitor) Text.notYet
      else
        log (name monitor) Text.alreadySent
  end.

Definition runCheckAsync (monitor : Monitor) : Async unit :=
  log (name monitor) Text.startingCheck;;
  tryCatch (checkAndCompare monitor) (trackError monitor).

(** [await runCheck(monitor, db)]: how the call ends, the database it leaves
    and the effects it produced. *)
Definition runCheck (monitor : Monitor) (db : Database)
    : Completion unit * Database * list Effect :=
  let '(c, w) := runCheckAsync monitor (mkWorld db [] 0%nat) in
  (c, w_db w, w_out w).

End Engine.

(** ** One pass over the monitors *)

(** The loop of [runAllChecks], [for (const monitor of monitors)
    await runCheck(monitor, db)], each call with the [Tick] it meets; an
    exception that leaves [runCheck] leaves the loop ([try ... finally] has
    no handler, [db.close()] does not change the stored data). *)
Fixpoint runAllChecks (cfg : Config) (pass : list (Monitor * Tick)) (db : Database)
    : Completion unit * Database * list Effect :=
  match pass with
  | [] => (Normal tt, db, [])
  | (monitor, tk) :: rest =>
      match runCheck cfg tk monitor db with
      | (Normal _, db', out) =>
          let '(c, db'', out') := runAllChecks cfg rest db' in
          (c, db'', out ++ out')
      | (Abrupt e, db', out) => (Abrupt e, db', out)
      end
  end.

(** ** The registry of monitors ([src/monitors]) *)

Definition newline : string := String (Ascii.ascii_of_nat 10) EmptyString.

(** [String.prototype.toUpperCase] and [toLowerCase] on the ASCII letters;
    every other byte is kept (the names and details of the registry have no
    upper-case letter outside ASCII). *)
Definition upperAscii (c : Ascii.ascii) : Ascii.ascii :=
  let n := Ascii.nat_of_ascii c in
  if ((97 <=? n) && (n <=? 122))%nat then Ascii.ascii_of_nat (n - 32) else c.

Definition lowerAscii (c : Ascii.ascii) : Ascii.ascii :=
  let n := Ascii.nat_of_ascii c in
  if ((65 <=? n) && (n <=? 90))%nat then Ascii.ascii_of_nat (n + 32) else c.

Fixpoint mapString (f : Ascii.ascii → Ascii.ascii) (s : string) : string :=
  match s with
  | EmptyString => EmptyString
  | String c s' => String (f c) (mapString f s')
  end.

Definition toUpperCase : string → string := mapString upperAscii.
Definition toLowerCase : string → string := mapString lowerAscii.

Definition bookeroMonitor : Monitor :=
  mkMonitor "bookero" "https://felican_kajetan_radajewski.bookero.pl/"
    (λ result previousState,
       let isAvailable := bool_decide (state result = "available") in
       mkNotification
         (if isAvailable then "Wolne terminy USG!" else "Terminy USG zamknięte")
         (match previousState with
          | None =>
              if isAvailable then "Pierwsze sprawdzenie. " +:+ detail result
              else "Pierwsze sprawdzenie. Brak wolnych terminów."
          | Some _ =>
              if isAvailable
              then "Pojawiły się wolne terminy USG!" +:+ newline +:+ detail result
              else "Wszystkie terminy USG są obecnie zamknięte."
          end)
         (if isAvailable then 5 else 4)
         (if isAvailable then ["tada"] else ["warning"])).

Definition sportivoMonitor : Monitor :=
  mkMonitor "sportivo" "https://s-sportivo.pl/czlonkostwo/"
    (λ result previousState,
       let isOpen := bool_decide (state result = "open") in
       mkNotification
         (if isOpen then "Rejestracja OTWARTA!" else "Rejestracja zamknięta")
         (match previousState with
          | None =>
              "Pierwsze sprawdzenie. Aktualny stan: " +:+
              toLowerCase (detail result) +:+ "."
          | Some _ =>
              if isOpen
              then "Rejestracja w S-Sportivo została właśnie otwarta! Wejdź na stronę i się zapisz."
              else "Rejestracja w S-Sportivo została zamknięta."
          end)
         (if isOpen then 5 else 4)
         (if isOpen then ["tada"] else ["warning"])).

Definition all : list Monitor := [bookeroMonitor; sportivoMonitor].

(** [`MONITOR_${m.name.toUpperCase()}`] *)
Definition envKey (m : Monitor) : string := "MONITOR_" +:+ toUpperCase (name m).

(** [all.filter((m) => process.env[envKey] !== "false")]; [env] is
    [process.env], a variable that is not set reads [undefined]. *)
Definition monitors (env : gmap string string) (registry : list Monitor) : list Monitor :=
  filter (λ m, env !! envKey m ≠ Some "false") registry.

(** ** Reading a run *)

(** The kinds of the dispatcher calls of a run, in order. *)
Definition eventKinds (out : list Effect) : list Kind :=
  omap (λ e, match e with Event k _ => Some k | _ => None end) out.

(** How many times a run reached the call site of kind [k]. *)
Definition countEvents (k : Kind) (out : list Effect) : nat :=
  length (filter (λ k', k' = k) (eventKinds out)).

(** The answers ntfy.sh gave to the POSTs of a run, in order. *)
Definition postAnswers (out : list Effect) : list FetchOutcome :=
  omap (λ e, match e with Post _ _ r => Some r | _ => None end) out.

(** A POST that [sendNotification] takes as delivered: a response with
    [response.ok]. *)
Definition delivered (r : FetchOutcome) : bool :=
  match r with
  | Responded ok _ => ok
  | Rejected _ => false
  end.

(** No POST of the run made [sendNotification] throw. *)
Definition noDispatchRaised (out : list Effect) : bool :=
  forallb delivered (postAnswers out).

(** The monitors whose check was started in a run. *)
Definition started (out : list Effect) : list string :=
  omap (λ e, match e with
             | Log m msg => if String.eqb msg Text.startingCheck then Some m else None
             | _ => None
             end) out.

(** The three parts of the result of [runCheck] and [runAllChecks]. *)
Definition completionOf {A B C} (r : A * B * C) : A := r.1.1.
Definition dbAfter {A B C} (r : A * B * C) : B := r.1.2.
Definition outOf {A B C} (r : A * B * C) : C := r.2.

(** Consecutive scheduler ticks seen from one monitor: each call of
    [runCheck] works on the database the previous call left (the store is a
    file and outlives the call, however the call ended).  The result is the
    final database and the effects of each tick. *)
Fixpoint runTicks (cfg : Config) (monitor : Monitor) (ticks : list Tick)
    (db : Database) : Database * list (list Effect) :=
  match ticks with
  | [] => (db, [])
  | tk :: rest =>
      let r := runCheck cfg tk monitor db in
      let '(db', outs) := runTicks cfg monitor rest (dbAfter r) in
      (db', outOf r :: outs)
  end.

(** The tick failed: [monitor.check()] threw. *)
Definition failed (tk : Tick) : bool :=
  match probe tk with
  | Failed _ => true
  | Returned _ => false
  end.

(** Where a streak started at [t0] is due its alert, tick by tick: one
    alert, at the first tick with [now - t0 >= 15 minutes]. *)
Fixpoint thresholdMarks (t0 : Z) (ticks : list Tick) : list nat :=
  match ticks with
  | [] => []
  | tk :: rest =>
      if 900 <=? now tk - t0 then 1%nat :: map (λ _, 0%nat) rest
      else 0%nat :: thresholdMarks t0 rest
  end.

(** The database a call leaves when no dispatch of the call raised: the
    streak cleared and one row appended after a result; the streak started,
    marked or left alone after a failure. *)
Definition bookkeeping (tk : Tick) (monitor : Monitor) (db : Database) : Database :=
  match probe tk with
  | Returned result =>
      saveState (now tk) (deleteStreak db (name monitor)) (name monitor)
        (state result)
        (match getLastState db (name monitor) with
         | None => true
         | Some previous => bool_decide (state result ≠ previous)
         end)
  | Failed _ =>
      match selectStreak db (name monitor) with
      | None => insertStreak (now tk) db (name monitor)
      | Some s =>
          if negb (truthy (streak_notified s)) && (started_at s <=? now tk - 900)
          then markStreakNotified db (name monitor)
          else db
      end
  end.

(** Two worlds that look the same from [monitor]: same effects so far, same
    number of POSTs, same last state, same streak row. *)
Definition sameView (monitor : Monitor) (w1 w2 : World) : Prop :=
  w_out w1 = w_out w2 ∧ w_sent w1 = w_sent w2
  ∧ getLastState (w_db w1) (name monitor) = getLastState (w_db w2) (name monitor)
  ∧ selectStreak (w_db w1) (name monitor) = selectStreak (w_db w2) (name monitor).

(** A computation that cannot tell such worlds apart. *)
Definition blind (monitor : Monitor) {A} (m : Async A) : Prop :=
  ∀ w1 w2,
    sameView monitor w1 w2 →
    (m w1).1 = (m w2).1 ∧ sameView monitor (m w1).2 (m w2).2.

(** What a call shows of its own monitor: how it ended, its effects, and the
    last state and the streak it leaves. *)
Definition observe (monitor : Monitor)
    (r : Completion unit * Database * list Effect)
    : Completion unit * list Effect * option string * option StreakRow :=
  (completionOf r, outOf r, getLastState (dbAfter r) (name monitor),
   selectStreak (dbAfter r) (name monitor)).

(** ** Example inputs *)

Definition alerts : Config := mkConfig (Some "alerts") None.
Definition debugOnly : Config := mkConfig None (Some "debug").
Definition ntfyUp : nat → FetchOutcome := λ _, Responded true "200 OK".
Definition ntfyDown : nat → FetchOutcome :=
  λ _, Responded false "503 Service Unavailable".
Definition failingTick (t : Z) (answers : nat → FetchOutcome) : Tick :=
  mkTick (Failed "HTTP 500 Internal Server Error") answers t.
Definition resultTick (st : string) (t : Z) (answers : nat → FetchOutcome) : Tick :=
  mkTick (Returned (mkCheckResult st EmptyString)) answers t.

(** bookero last seen unavailable. *)
Definition seenUnavailable : Database :=
  mkDatabase [mkCheckRow 1 "bookero" "unavailable" 0 1] ∅.
(** bookero and sportivo each with one record. *)
Definition twoMonitors : Database :=
  mkDatabase [mkCheckRow 1 "bookero" "unavailable" 0 1;
              mkCheckRow 2 "sportivo" "open" 0 1] ∅.
(** bookero in a streak started at 0, alert sent. *)
Definition notifiedStreak : Database :=
  mkDatabase [mkCheckRow 1 "bookero" "unavailable" 0 1]
    {[ "bookero" := mkStreakRow 0 1 ]}.
(** bookero in a streak started at 0, no alert yet. *)
Definition openStreak : Database :=
  mkDatabase [] {[ "bookero" := mkStreakRow 0 0 ]}.

(** A pass over both monitors of the registry: the probe of bookero fails
    and ntfy.sh answers 503; the probe of sportivo returns a result. *)
Definition abortedPass : list (Monitor * Tick) :=
  [(bookeroMonitor, failingTick 900 ntfyDown);
   (sportivoMonitor,
    mkTick (Returned (mkCheckResult "open" "Rejestracja otwarta")) ntfyUp 900)].

(** ** More of the code: ids, startup, the checks of the monitors *)

(** The ids of [checks] grow along the table, as [INTEGER PRIMARY KEY
    AUTOINCREMENT] makes them when rows are only ever inserted. *)
Fixpoint idsAscending (t : list CheckRow) : bool :=
  match t with
  | [] => true
  | r :: rest => forallb (λ r', row_id r <? row_id r') rest && idsAscending rest
  end.

(** The [notified] column marks the changes: along the rows of one monitor,
    a row carries [notified] 1 when its state differs from the state of the
    row before it, or when there is no row before it, and 0 otherwise. *)
Fixpoint changesMarkedFrom (previous : option string) (rows : list CheckRow) : bool :=
  match rows with
  | [] => true
  | r :: rest =>
      bool_decide
        (row_notified r = if bool_decide (previous = Some (row_state r)) then 0 else 1)
      && changesMarkedFrom (Some (row_state r)) rest
  end.

Definition changesMarked (monitorName : string) (t : list CheckRow) : bool :=
  changesMarkedFrom None (rowsOf monitorName t).

(** A call of the pass whose exception, if any, stays inside [runCheck]: the
    probe returns, or [NTFY_TOPIC] is not set, or ntfy.sh accepts the first
    POST of the call. *)
Definition contained (cfg : Config) (mt : Monitor * Tick) : bool :=
  negb (failed mt.2) || negb (truthyStr (NTFY_TOPIC cfg)) || delivered (ntfy mt.2 0%nat).

(** [Array.prototype.join] on strings. *)
Definition join (sep : string) (l : list string) : string := String.concat sep l.

(** The console lines of [main]. *)
Module StartupText.
Definition noMonitors : string :=
  "No monitors enabled. Set MONITOR_<NAME>=true or remove =false flags.".
Definition activeMonitors : string := "Active monitors: ".
Definition scheduled : string := "Scheduled every minute. Next check at ".
End StartupText.

(** How [main] ends: [process.exit(code)]; or the promise of [main] rejected
    by the first pass, before any job is created; or the cron job started.
    Each with the lines [main] itself printed, and for the last two the
    database and the effects of the first pass. *)
Inductive Startup :=
  | Exited (code : Z) (console : list string)
  | PassRejected (e : string) (console : list string) (db : Database) (out : list Effect)
  | Scheduled (console : list string) (db : Database) (out : list Effect).

(** [main]: leave with code 1 when no monitor is enabled; otherwise print
    the names, await one pass, then create the job that runs a pass every
    minute and print when it fires next ([next], read from the job).
    [world] is what each monitor meets during the first pass. *)
Definition main (cfg : Config) (env : gmap string string) (registry : list Monitor)
    (world : Monitor → Tick) (next : string) (db : Database) : Startup :=
  let enabled := monitors env registry in
  if bool_decide (length enabled = 0%nat) then Exited 1 [StartupText.noMonitors]
  else
    let console := [StartupText.activeMonitors +:+ join ", " (name <$> enabled)] in
    match runAllChecks cfg ((λ m, (m, world m)) <$> enabled) db with
    | (Normal _, db', out) =>
        Scheduled (console ++ [StartupText.scheduled +:+ next]) db' out
    | (Abrupt e, db', out) => PassRejected e console db' out
    end.

(** [String.prototype.includes], on the bytes of the two strings. *)
Fixpoint startsWith (p s : string) : bool :=
  match p, s with
  | EmptyString, _ => true
  | String a p', String b s' => Ascii.eqb a b && startsWith p' s'
  | String _ _, EmptyString => false
  end.

Fixpoint includes (needle hay : string) : bool :=
  startsWith needle hay
  || match hay with
     | EmptyString => false
     | String _ hay' => includes needle hay'
     end.

(** [CLOSED_TEXT] of the sportivo monitor. *)
Definition CLOSED_TEXT : string := "Rejestracja jest obecnie wyłączona".

(** What [fetch(TARGET_URL, ...)] gives the sportivo monitor: a response with
    its [ok] flag, its status line and what [await response.text()] gives; or
    a rejection (network error, or the 10 second timeout of the request). *)
Inductive PageOutcome :=
  | PageResponse (ok : bool) (statusLine : string) (text : Completion string)
  | PageRejected (errorMsg : string).

(** [sportivoMonitor.check()] *)
Definition sportivoCheck (page : PageOutcome) : ProbeOutcome :=
  match page with
  | PageRejected e => Failed e
  | PageResponse ok statusLine text =>
      if negb ok then Failed ("HTTP " +:+ statusLine)
      else
        match text with
        | Abrupt e => Failed e
        | Normal body =>
            let isClosed := includes CLOSED_TEXT body in
            Returned
              (mkCheckResult
                 (if isClosed then "closed" else "open")
                 (if isClosed then "Rejestracja zamknięta" else "Rejestracja otwarta"))
        end
  end.

(** The [AvailableSlot] interface of the bookero monitor. *)
Record AvailableSlot := mkAvailableSlot {
  slot_date : string;
  slot_day : string;
  slot_hours : list string
}.

(** [formatSlots]: one line [date (day): hour, hour, ...] per slot. *)
Definition formatSlot (s : AvailableSlot) : string :=
  slot_date s +:+ " (" +:+ slot_day s +:+ "): " +:+ join ", " (slot_hours s).

Definition formatSlots (slots : list AvailableSlot) : string :=
  join newline (formatSlot <$> slots).

(** What the code reads of the JSON that the bookero API answers for one
    month: the flag [valid_month]; [days], an object whose values
    ([Object.values], in its order) each carry [date], [day] (may be
    missing), the number [valid_day] and [hours] (may be missing), an array of
    hours given either as objects with a field [hour] or as plain strings.
    The response is typed [any] in the source; this is the shape its reads
    and the [AvailableSlot] interface assume, with whole numbers for
    [valid_day]. *)
Inductive ApiHour :=
  | HourObject (hour : string)
  | HourText (h : string).

Record ApiDay := mkApiDay {
  day_date : string;
  day_day : option string;
  valid_day : Z;
  day_hours : option (list ApiHour)
}.

Record ApiMonth := mkApiMonth {
  valid_month : bool;
  days : option (list ApiDay)
}.

(** What [fetch(`${API_BASE}/getMonth?...`)] gives: a response with its
    [ok] flag, its status line and what [response.json()] gives; or a
    rejection (network error or the 10 second timeout). *)
Inductive MonthOutcome :=
  | MonthResponse (ok : bool) (statusLine : string) (json : Completion ApiMonth)
  | MonthRejected (errorMsg : string).

(** [fetchMonth] *)
Definition fetchMonth (r : MonthOutcome) : Completion ApiMonth :=
  match r with
  | MonthRejected e => Abrupt e
  | MonthResponse ok statusLine json =>
      if negb ok then Abrupt ("HTTP " +:+ statusLine) else json
  end.

(** [h.hour ?? h] *)
Definition hourOf (h : ApiHour) : string :=
  match h with
  | HourObject hour => hour
  | HourText s => s
  end.

(** [day.valid_day > 0 && day.hours && day.hours.length > 0] *)
Definition bookable (day : ApiDay) : bool :=
  (0 <? valid_day day)
  && match day_hours day with
     | Some (_ :: _) => true
     | _ => false
     end.

(** The slots one month adds in [check]: none when
    [!data.valid_month || !data.days], otherwise one per bookable day. *)
Definition slotsOf (data : ApiMonth) : list AvailableSlot :=
  if negb (valid_month data) then []
  else
    match days data with
    | None => []
    | Some ds =>
        omap (λ day,
                if bookable day then
                  Some (mkAvailableSlot (day_date day) (default EmptyString (day_day day))
                          (hourOf <$> default [] (day_hours day)))
                else None) ds
    end.

(** [bookeroMonitor.check()]: the months [0] and [1] are fetched one after
    the other; the second is not asked for when the first fails. *)
Definition bookeroCheck (month0 month1 : MonthOutcome) : ProbeOutcome :=
  match fetchMonth month0 with
  | Abrupt e => Failed e
  | Normal data0 =>
      match fetchMonth month1 with
      | Abrupt e => Failed e
      | Normal data1 =>
          let slots := slotsOf data0 ++ slotsOf data1 in
          let some := bool_decide (0 < length slots)%nat in
          Returned
            (mkCheckResult
               (if some then "available" else "unavailable")
               (if some then "Dostępne terminy:" +:+ newline +:+ formatSlots slots
                else "Brak wolnych terminów"))
      end
  end.

(** ** More example inputs *)

(** A pass in which both probes return and ntfy.sh accepts every POST. *)
Definition quietPass : list (Monitor * Tick) :=
  [(bookeroMonitor, resultTick "available" 60 ntfyUp);
   (sportivoMonitor, resultTick "open" 60 ntfyUp)].

(** A pass in which the probe of bookero fails on its first tick and
    ntfy.sh refuses what sportivo sends. *)
Definition containedPass : list (Monitor * Tick) :=
  [(bookeroMonitor, failingTick 0 ntfyUp);
   (sportivoMonitor, resultTick "open" 0 ntfyDown)].

(** An outage of 15 minutes and the tick after it. *)
Definition outage : list Tick :=
  [failingTick 600 ntfyUp; failingTick 900 ntfyUp].

(** sportivo last seen closed. *)
Definition seenClosed : Database :=
  mkDatabase [mkCheckRow 1 "sportivo" "closed" 0 1] ∅.

(** A page of sportivo without the closing sentence. *)
Definition openPage : string := "<h1>Zapisy do klubu</h1><form></form>".


(** Two months of the bookero API: one bookable day with two hours, the
    second hour given as a plain string; and a month without days. *)
Definition monthWithSlot : MonthOutcome :=
  MonthResponse true "200 OK"
    (Normal
       (mkApiMonth true
          (Some [mkApiDay "2025-01-09" (Some "czw") 0 (Some [HourObject "09:00"]);
                 mkApiDay "2025-01-10" (Some "pt") 1
                   (Some [HourObject "10:00"; HourText "11:30"]);
                 mkApiDay "2025-01-11" None 1 (Some [])]))).
Definition monthWithoutDays : MonthOutcome :=
  MonthResponse true "200 OK" (Normal (mkApiMonth true None)).

(** ** The single-target scripts

    The two scripts that the engine replaced: each watches one target, with
    a database of its own, and reads [NTFY_TOPIC], [TEST_MODE] and
    [FORCE_STATE] from the environment.  Their console lines are not
    modelled: what is kept of a call of [runCheck] is the database and the
    POSTs to ntfy.sh.  As in the engine, the answer of ntfy.sh to the i-th
    POST of a call and the clock of the store are handed to the call. *)

Module Script.

(** One row of [checks (id INTEGER PRIMARY KEY AUTOINCREMENT, state,
    checked_at DEFAULT datetime('now'), notified DEFAULT 0)]. *)
Record Row := mkRow {
  r_id : Z;
  r_state : string;
  r_checked_at : Z;
  r_notified : Z
}.

(** [ORDER BY id DESC LIMIT 1] *)
Fixpoint maxById (rows : list Row) : option Row :=
  match rows with
  | [] => None
  | r :: rs =>
      match maxById rs with
      | None => Some r
      | Some r' => if r_id r' <? r_id r then Some r else Some r'
      end
  end.

(** [getLastState]: [SELECT state FROM checks ORDER BY id DESC LIMIT 1], then
    [row?.state ?? null]. *)
Definition getLastState (t : list Row) : option string := r_state <$> maxById t.

(** The id that [AUTOINCREMENT] gives the next row. *)
Definition nextId (t : list Row) : Z :=
  1 + foldr (λ r acc, Z.max (r_id r) acc) 0 t.

(** [saveState]: [INSERT INTO checks (state, notified) VALUES (?, ?)] with
    [notified ? 1 : 0]. *)
Definition saveState (now : Z) (t : list Row) (state : string) (notified : bool)
    : list Row :=
  t ++ [mkRow (nextId t) state now (if notified then 1 else 0)].

(** [process.env.NTFY_TOPIC], [process.env.TEST_MODE] and
    [process.env.FORCE_STATE]. *)
Record Env := mkEnv {
  NTFY_TOPIC : option string;
  TEST_MODE_var : option string;
  FORCE_STATE : option string
}.

(** [const TEST_MODE = process.env.TEST_MODE === "true"] *)
Definition TEST_MODE (env : Env) : bool :=
  bool_decide (TEST_MODE_var env = Some "true").

(** One POST to ntfy.sh: the fields of its JSON body ([click] is absent
    from some) and the answer it got. *)
Record Sent := mkSent {
  sent_topic : string;
  sent_body : Notification;
  sent_click : option string;
  sent_answer : FetchOutcome
}.

(** [await fetch("https://ntfy.sh", { method: "POST", ... })] followed by
    [if (!response.ok) throw new Error(`ntfy error: ...`)]. *)
Definition postChecked (s : Sent) : Completion unit * list Sent :=
  match sent_answer s with
  | Rejected e => (Abrupt e, [s])
  | Responded ok statusLine =>
      if negb ok then (Abrupt ("ntfy error: " +:+ statusLine), [s])
      else (Normal tt, [s])
  end.

(** The same [fetch] where the response is not looked at (or only logged):
    only a network error throws. *)
Definition postUnchecked (s : Sent) : Completion unit * list Sent :=
  match sent_answer s with
  | Rejected e => (Abrupt e, [s])
  | Responded _ _ => (Normal tt, [s])
  end.

End Script.

(** *** The sportivo script *)

Module SportivoScript.

Definition TARGET_URL : string := "https://s-sportivo.pl/czlonkostwo/".

(** [checkRegistration]: [FORCE_STATE] when it is set, without any request;
    otherwise the page is fetched and its text is read before the status is
    looked at. *)
Definition checkRegistration (env : Script.Env) (page : PageOutcome)
    : Completion string :=
  if truthyStr (Script.FORCE_STATE env) then
    Normal (default EmptyString (Script.FORCE_STATE env))
  else
    match page with
    | PageRejected e => Abrupt e
    | PageResponse ok statusLine text =>
        match text with
        | Abrupt e => Abrupt e
        | Normal body =>
            if negb ok then Abrupt ("HTTP " +:+ statusLine)
            else Normal (if includes CLOSED_TEXT body then "closed" else "open")
        end
    end.

(** The title, message, priority ([Number("5")], [Number("4")]) and tags
    that [notify] puts together. *)
Definition notification (state : string) (previousState : option string)
    : Notification :=
  let isOpen := bool_decide (state = "open") in
  mkNotification
    (if isOpen then "Rejestracja OTWARTA!" else "Rejestracja zamknięta")
    (match previousState with
     | None =>
         "Pierwsze sprawdzenie. Aktualny stan: "
           +:+ (if isOpen then "rejestracja otwarta" else "rejestracja zamknięta")
           +:+ "."
     | Some _ =>
         if isOpen then
           "Rejestracja w S-Sportivo została właśnie otwarta! Wejdź na stronę i się zapisz."
         else "Rejestracja w S-Sportivo została zamknięta."
     end)
    (if isOpen then 5 else 4)
    [if isOpen then "tada" else "warning"].

(** [notify] *)
Definition notify (env : Script.Env) (state : string) (previousState : option string)
    (answer : FetchOutcome) : Completion unit * list Script.Sent :=
  if negb (truthyStr (Script.NTFY_TOPIC env)) then (Normal tt, [])
  else
    Script.postChecked
      (Script.mkSent (default EmptyString (Script.NTFY_TOPIC env))
         (notification state previousState) (Some TARGET_URL) answer).

Definition testNotification : Notification :=
  mkNotification "Test: monitor działa!"
    "Sportivo monitor jest aktywny i wysyła powiadomienia poprawnie."
    3 ["white_check_mark"].

(** [sendTestNotification] *)
Definition sendTestNotification (env : Script.Env) (answer : FetchOutcome)
    : Completion unit * list Script.Sent :=
  if negb (truthyStr (Script.NTFY_TOPIC env)) then (Normal tt, [])
  else
    Script.postUnchecked
      (Script.mkSent (default EmptyString (Script.NTFY_TOPIC env))
         testNotification None answer).

(** [runCheck]: whatever is thrown inside the [try] block is logged and the
    check is skipped. *)
Definition runCheck (env : Script.Env) (page : PageOutcome)
    (answers : nat → FetchOutcome) (now : Z) (t : list Script.Row)
    : list Script.Row * list Script.Sent :=
  match checkRegistration env page with
  | Abrupt _ => (t, [])
  | Normal currentState =>
      let previousState := Script.getLastState t in
      let thenSave (sending : Completion unit * list Script.Sent) (notified : bool) :=
        match sending with
        | (Normal _, sent) => (Script.saveState now t currentState notified, sent)
        | (Abrupt _, sent) => (t, sent)
        end in
      match previousState with
      | None => thenSave (notify env currentState None (answers 0%nat)) true
      | Some previous =>
          if bool_decide (currentState ≠ previous) then
            thenSave (notify env currentState previousState (answers 0%nat)) true
          else if Script.TEST_MODE env then
            thenSave (sendTestNotification env (answers 0%nat)) false
          else (Script.saveState now t currentState false, [])
      end
  end.

End SportivoScript.

(** *** The bookero script *)

Module BookeroScript.

(** The database of the script: [checks], and [error_streak
    (id INTEGER PRIMARY KEY CHECK (id = 1), started_at, notified DEFAULT 0)],
    which holds at most one row. *)
Record Store := mkStore {
  s_checks : list Script.Row;
  s_streak : option StreakRow
}.

(** The [CheckResult] of the script. *)
Record Availability := mkAvailability {
  a_state : string;
  a_slots : list AvailableSlot
}.

Definition BOOKERO_URL : string := "https://felican_kajetan_radajewski.bookero.pl/".

(** [checkAvailability]: [FORCE_STATE] when it is set, without any request;
    otherwise the two months are fetched and searched as the monitor of the
    same name does ([fetchMonth] and the loop over the days are the same
    text). *)
Definition checkAvailability (env : Script.Env) (month0 month1 : MonthOutcome)
    : Completion Availability :=
  if truthyStr (Script.FORCE_STATE env) then
    Normal (mkAvailability (default EmptyString (Script.FORCE_STATE env)) [])
  else
    match fetchMonth month0 with
    | Abrupt e => Abrupt e
    | Normal data0 =>
        match fetchMonth month1 with
        | Abrupt e => Abrupt e
        | Normal data1 =>
            let slots := slotsOf data0 ++ slotsOf data1 in
            Normal
              (mkAvailability
                 (if bool_decide (0 < length slots)%nat then "available"
                  else "unavailable")
                 slots)
        end
    end.

(** The title, message, priority and tags that [notify] puts together. *)
Definition notification (result : Availability) (previousState : option string)
    : Notification :=
  let isAvailable := bool_decide (a_state result = "available") in
  mkNotification
    (if isAvailable then "Wolne terminy USG!" else "Terminy USG zamknięte")
    (match previousState with
     | None =>
         if isAvailable then
           "Pierwsze sprawdzenie. Dostępne terminy:" +:+ newline
             +:+ formatSlots (a_slots result)
         else "Pierwsze sprawdzenie. Brak wolnych terminów."
     | Some _ =>
         if isAvailable then
           "Pojawiły się wolne terminy USG!" +:+ newline
             +:+ formatSlots (a_slots result)
         else "Wszystkie terminy USG są obecnie zamknięte."
     end)
    (if isAvailable then 5 else 4)
    [if isAvailable then "tada" else "warning"].

(** [notify] *)
Definition notify (env : Script.Env) (result : Availability)
    (previousState : option string) (answer : FetchOutcome)
    : Completion unit * list Script.Sent :=
  if negb (truthyStr (Script.NTFY_TOPIC env)) then (Normal tt, [])
  else
    Script.postChecked
      (Script.mkSent (default EmptyString (Script.NTFY_TOPIC env))
         (notification result previousState) (Some BOOKERO_URL) answer).

(** [notifyError]: the response is not looked at. *)
Definition notifyError (env : Script.Env) (errorMessage : string)
    (answer : FetchOutcome) : Completion unit * list Script.Sent :=
  if negb (truthyStr (Script.NTFY_TOPIC env)) then (Normal tt, [])
  else
    Script.postUnchecked
      (Script.mkSent (default EmptyString (Script.NTFY_TOPIC env))
         (mkNotification "Bookero niedostępne!"
            ("API Bookero nie odpowiada od 15 minut. Ostatni błąd: " +:+ errorMessage)
            4 ["rotating_light"])
         None answer).

(** [notifyRecovery]: the response is not looked at. *)
Definition notifyRecovery (env : Script.Env) (answer : FetchOutcome)
    : Completion unit * list Script.Sent :=
  if negb (truthyStr (Script.NTFY_TOPIC env)) then (Normal tt, [])
  else
    Script.postUnchecked
      (Script.mkSent (default EmptyString (Script.NTFY_TOPIC env))
         (mkNotification "Bookero znów działa"
            "API Bookero (weterynarz) znów odpowiada po przerwie."
            3 ["white_check_mark"])
         None answer).

(** The [try] block of [runCheck]: the store and the POSTs it leaves, and
    how it ends. *)
Definition checkAndCompare (env : Script.Env) (month0 month1 : MonthOutcome)
    (answers : nat → FetchOutcome) (now : Z) (s : Store)
    : Completion unit * Store * list Script.Sent :=
  match checkAvailability env month0 month1 with
  | Abrupt e => (Abrupt e, s, [])
  | Normal result =>
      let recovery :=
        if optTruthy (streak_notified <$> s_streak s) then
          notifyRecovery env (answers 0%nat)
        else (Normal tt, []) in
      match recovery with
      | (Abrupt e, sent) => (Abrupt e, s, sent)
      | (Normal _, sent) =>
          let s1 := mkStore (s_checks s) None in
          let previousState := Script.getLastState (s_checks s1) in
          let thenSave (sending : Completion unit * list Script.Sent)
              (notified : bool) :=
            match sending with
            | (Normal _, sent') =>
                (Normal tt,
                 mkStore (Script.saveState now (s_checks s1) (a_state result) notified)
                   (s_streak s1),
                 sent ++ sent')
            | (Abrupt e, sent') => (Abrupt e, s1, sent ++ sent')
            end in
          match previousState with
          | None => thenSave (notify env result None (answers (length sent))) true
          | Some previous =>
              if bool_decide (a_state result ≠ previous) then
                thenSave (notify env result previousState (answers (length sent))) true
              else if Script.TEST_MODE env then
                thenSave (notify env result previousState (answers (length sent)))
                  false
              else thenSave (Normal tt, []) false
          end
      end
  end.

(** The [catch] block of [runCheck]. *)
Definition trackError (env : Script.Env) (errorMsg : string)
    (answers : nat → FetchOutcome) (now : Z) (s : Store) (sent : list Script.Sent)
    : Completion unit * Store * list Script.Sent :=
  match s_streak s with
  | None => (Normal tt, mkStore (s_checks s) (Some (mkStreakRow now 0)), sent)
  | Some streak =>
      if negb (truthy (streak_notified streak)) then
        if started_at streak <=? now - 900 then
          match notifyError env errorMsg (answers (length sent)) with
          | (Normal _, sent') =>
              (Normal tt,
               mkStore (s_checks s) (Some (mkStreakRow (started_at streak) 1)),
               sent ++ sent')
          | (Abrupt e, sent') => (Abrupt e, s, sent ++ sent')
          end
        else (Normal tt, s, sent)
      else (Normal tt, s, sent)
  end.

(** [runCheck] *)
Definition runCheck (env : Script.Env) (month0 month1 : MonthOutcome)
    (answers : nat → FetchOutcome) (now : Z) (s : Store)
    : Completion unit * Store * list Script.Sent :=
  match checkAndCompare env month0 month1 answers now s with
  | (Normal _, s', sent) => (Normal tt, s', sent)
  | (Abrupt e, s', sent) => trackError env e answers now s' sent
  end.

End BookeroScript.

(** *** Comparing the engine with a script *)

(** The POSTs of a call of the engine, as a script records them. *)
Definition sentBy (out : list Effect) : list Script.Sent :=
  omap (λ e, match e with
             | Post topic p answer =>
                 Some (Script.mkSent topic (body p) (Some (click p)) answer)
             | _ => None
             end) out.

(** No alert is due: there is no streak, or one that is neither notified nor
    15 minutes old. *)
Definition quiet (now : Z) (streak : option StreakRow) : bool :=
  match streak with
  | None => true
  | Some s => negb (truthy (streak_notified s)) && negb (started_at s <=? now - 900)
  end.

(** ntfy.sh accepts the POST or the request fails: it does not answer with
    an error status. *)
Definition noErrorStatus (answer : FetchOutcome) : bool :=
  match answer with
  | Responded ok _ => ok
  | Rejected _ => true
  end.

(** The outline of the POSTs: to which topic, with which priority and tags,
    and what was answered. *)
Definition outline (sent : list Script.Sent)
    : list (string * Z * list string * FetchOutcome) :=
  (λ s, (Script.sent_topic s, priority (Script.sent_body s),
         tags (Script.sent_body s), Script.sent_answer s)) <$> sent.

(** *** Example inputs for the scripts *)

Definition scriptEnv : Script.Env := Script.mkEnv (Some "alerts") None None.
Definition forcedOpen : Script.Env := Script.mkEnv (Some "alerts") None (Some "open").

(** The table of the sportivo script after one check that saw [closed]. *)
Definition scriptClosed : list Script.Row := [Script.mkRow 1 "closed" 0 1].

(** The store of the bookero script in a streak started at 0, no alert yet,
    and the same streak in the database of the engine. *)
Definition scriptOpenStreak : BookeroScript.Store :=
  BookeroScript.mkStore [] (Some (mkStreakRow 0 0)).
Definition monthDown : MonthOutcome := MonthRejected "The operation timed out.".

(** * Properties *)

(** Clearing a streak leaves the last states alone. *)
Lemma getLastState_deleteStreak db m m' :
  getLastState (deleteStreak db m) m' = getLastState db m'.
Proof. reflexivity. Qed.

(** Symbolic execution of one call of [runCheck]: name the result, unfold
    the call, then split on what each test reads, innermost test first,
    reusing what the earlier tests found. *)
Ltac unfold_run :=
  unfold runCheck, runCheckAsync, tryCatch, checkAndCompare, trackError,
    notifyRecovery, notifyError, sendNotification, fetch, check, log, emit,
    tell, query, run, throw, mbind, mret, Async_bind, Async_ret,
    completionOf, dbAfter, outOf, optTruthy, selectStreak, selectOverdue in *.

Ltac run_norm :=
  repeat progress (
    cbn beta iota zeta delta
      [probe ntfy now NTFY_TOPIC NTFY_DEBUG_TOPIC w_db w_out w_sent fst snd
       negb nullish fmap option_fmap option_map
       checks error_streak deleteStreak insertStreak markStreakNotified];
    rewrite ?getLastState_deleteStreak, ?lookup_delete_eq, ?lookup_insert_eq,
      ?lookup_alter_eq).

Ltac split_on x :=
  lazymatch x with
  | context [match _ with _ => _ end] => fail
  | _ =>
      lazymatch goal with
      | H : x = _ |- _ => rewrite H
      | _ => destruct x eqn:?
      end
  end.

Ltac inner_match :=
  match goal with
  | |- context [match ?x with _ => _ end] =>
      lazymatch x with
      | _ <$> ?y => split_on y
      | negb ?y => split_on y
      | _ => split_on x
      end
  end.

Ltac name_run :=
  match goal with
  | |- context [runCheck ?c ?t ?m ?d] =>
      let E := fresh "E" in
      destruct (runCheck c t m d) as [[? ?] ?] eqn:E; revert E
  end.

Ltac exec_run :=
  name_run; unfold_run; run_norm; repeat (inner_match; run_norm);
  intros [= <- <- <-].

(** ** The store *)

Section Store.

Implicit Types (db : Database) (t rows : list CheckRow) (m : string).

(** [maxById] picks a row of the list with the largest id. *)
Lemma maxById_spec rows :
  match maxById rows with
  | None => rows = []
  | Some r => r ∈ rows ∧ ∀ r', r' ∈ rows → row_id r' ≤ row_id r
  end.
Proof.
  induction rows as [|a rows IH]; simpl; [done|].
  destruct (maxById rows) as [r|].
  - destruct IH as [Hin Hmax].
    destruct (Z.ltb_spec (row_id r) (row_id a)).
    + split; [left|]. intros r' [->|Hr']%elem_of_cons; [lia|].
      specialize (Hmax r' Hr'). lia.
    + split; [by right|]. intros r' [->|Hr']%elem_of_cons; [lia|]. by apply Hmax.
  - subst rows. split; [left|]. by intros r' ->%list_elem_of_singleton.
Qed.

(** A row appended with an id above all others is the one picked. *)
Lemma maxById_snoc rows r :
  (∀ r', r' ∈ rows → row_id r' < row_id r) →
  maxById (rows ++ [r]) = Some r.
Proof.
  induction rows as [|a rows IH]; intros Hlt; simpl; [done|].
  rewrite IH.
  - destruct (Z.ltb_spec (row_id r) (row_id a)) as [Hlt'|]; [|done].
    specialize (Hlt a ltac:(left)). lia.
  - intros r' Hr'. apply Hlt. by right.
Qed.

(** The next id is above every id of the table. *)
Lemma nextId_gt t r : r ∈ t → row_id r < nextId t.
Proof.
  unfold nextId. induction t as [|a t IH]; simpl.
  - by intros ?%elem_of_nil.
  - intros [->|Hr]%elem_of_cons; [lia|]. specialize (IH Hr). lia.
Qed.

(** The record just saved is the last state of its monitor. *)
Lemma getLastState_saveState_eq now db m s n :
  getLastState (saveState now db m s n) m = Some s.
Proof.
  unfold getLastState, saveState, rowsOf. simpl.
  rewrite filter_app, filter_cons_True, filter_nil by done.
  rewrite maxById_snoc; [done|].
  intros r' [_ Hr']%list_elem_of_filter. simpl. by apply nextId_gt.
Qed.

(** Saving a record of one monitor leaves the rows of the others. *)
Lemma rowsOf_saveState_ne now db m m' s n :
  m' ≠ m → rowsOf m' (checks (saveState now db m s n)) = rowsOf m' (checks db).
Proof.
  intros Hne. unfold saveState, rowsOf. simpl.
  rewrite filter_app, filter_cons_False, filter_nil by (simpl; congruence).
  apply app_nil_r.
Qed.

(** The last state of a monitor only depends on its own rows. *)
Lemma getLastState_rowsOf db db' m :
  rowsOf m (checks db') = rowsOf m (checks db) →
  getLastState db' m = getLastState db m.
Proof. unfold getLastState. by intros ->. Qed.

End Store.

(** ** One call of [runCheck] and the rows of other monitors *)

Section Scope.

Variables (cfg : Config) (tk : Tick) (monitor : Monitor).

(** A call only writes the rows of its own monitor. *)
Lemma runCheck_frame db m' :
  m' ≠ name monitor →
  rowsOf m' (checks (dbAfter (runCheck cfg tk monitor db))) = rowsOf m' (checks db)
  ∧ selectStreak (dbAfter (runCheck cfg tk monitor db)) m' = selectStreak db m'.
Proof.
  intros Hne. destruct tk as [p n t], cfg as [tp dbg].
  exec_run.
  all: rewrite ?rowsOf_saveState_ne by done.
  all: cbn [checks error_streak saveState deleteStreak insertStreak markStreakNotified].
  all: rewrite ?lookup_alter_ne, ?lookup_insert_ne, ?lookup_delete_ne by done.
  all: done.
Qed.

(** Each primitive of [Async], and each way of combining computations, is
    blind to what lies outside the view of [monitor]. *)
Lemma blind_ret {A} (a : A) : blind monitor (mret a).
Proof. by intros w1 w2 H. Qed.

Lemma blind_throw {A} e : blind monitor (@throw A e).
Proof. by intros w1 w2 H. Qed.

Lemma blind_bind {A B} (m : Async A) (f : A → Async B) :
  blind monitor m → (∀ a, blind monitor (f a)) → blind monitor (m ≫= f).
Proof.
  intros Hm Hf w1 w2 H. specialize (Hm w1 w2 H).
  unfold mbind, Async_bind.
  destruct (m w1) as [c1 w1'], (m w2) as [c2 w2']. simpl in Hm.
  destruct Hm as [-> Hw]. destruct c2; [by apply Hf | done].
Qed.

Lemma blind_tryCatch {A} (m : Async A) (h : string → Async A) :
  blind monitor m → (∀ e, blind monitor (h e)) → blind monitor (tryCatch m h).
Proof.
  intros Hm Hh w1 w2 H. specialize (Hm w1 w2 H).
  unfold tryCatch.
  destruct (m w1) as [c1 w1'], (m w2) as [c2 w2']. simpl in Hm.
  destruct Hm as [-> Hw]. destruct c2; [done | by apply Hh].
Qed.

Lemma blind_tell e : blind monitor (tell e).
Proof.
  intros w1 w2 (Ho & Hs & Hl & Hk). unfold tell, sameView. simpl.
  by rewrite Ho.
Qed.

Lemma blind_fetch topic p : blind monitor (fetch tk topic p).
Proof.
  intros w1 w2 (Ho & Hs & Hl & Hk). unfold fetch, sameView. rewrite Ho, Hs.
  by destruct (ntfy tk (w_sent w2)).
Qed.

Lemma blind_query {A} (q : Database → A) :
  (∀ w1 w2, sameView monitor w1 w2 → q (w_db w1) = q (w_db w2)) →
  blind monitor (query q).
Proof.
  intros Hq w1 w2 H. unfold query. simpl.
  split; [f_equal; by apply Hq | done].
Qed.

Lemma blind_run (stmt : Database → Database) :
  (∀ db1 db2,
     getLastState db1 (name monitor) = getLastState db2 (name monitor) →
     selectStreak db1 (name monitor) = selectStreak db2 (name monitor) →
     getLastState (stmt db1) (name monitor) = getLastState (stmt db2) (name monitor)
     ∧ selectStreak (stmt db1) (name monitor) = selectStreak (stmt db2) (name monitor)) →
  blind monitor (run stmt).
Proof.
  intros Hs w1 w2 (Ho & Hn & Hl & Hk). unfold run, sameView. simpl.
  destruct (Hs _ _ Hl Hk). done.
Qed.

Lemma blind_sendNotification payload topic :
  blind monitor (sendNotification cfg tk payload topic).
Proof.
  unfold sendNotification. case_match; [apply blind_ret|].
  apply blind_bind; [apply blind_fetch|]. intros a.
  case_match; [apply blind_throw | apply blind_ret].
Qed.

Ltac blind_step :=
  first
    [ apply blind_ret | apply blind_throw | apply blind_tell
    | apply blind_sendNotification
    | apply blind_bind; [|intros ?]
    | apply blind_tryCatch; [|intros ?] ].

(** So is the whole of [runCheck], by following its code. *)
Lemma blind_runCheckAsync : blind monitor (runCheckAsync cfg tk monitor).
Proof.
  unfold runCheckAsync, checkAndCompare, trackError, notifyRecovery, notifyError,
    check, log, emit.
  repeat first
    [ blind_step
    | apply blind_query; intros ? ? (_ & _ & Hl & Hk); unfold selectOverdue;
      unfold selectStreak in Hk; by rewrite ?Hl, ?Hk
    | apply blind_run; intros db1 db2 Hl Hk;
      rewrite ?getLastState_saveState_eq;
      unfold selectStreak, deleteStreak, insertStreak, markStreakNotified,
        saveState in *; simpl;
      rewrite ?lookup_delete_eq, ?lookup_insert_eq, ?lookup_alter_eq, ?Hk; done
    | case_match ].
Qed.

(** A call only reads the rows of its own monitor. *)
Lemma runCheck_view db1 db2 :
  getLastState db1 (name monitor) = getLastState db2 (name monitor) →
  selectStreak db1 (name monitor) = selectStreak db2 (name monitor) →
  observe monitor (runCheck cfg tk monitor db1)
  = observe monitor (runCheck cfg tk monitor db2).
Proof.
  intros Hl Hk.
  pose proof (blind_runCheckAsync (mkWorld db1 [] 0%nat) (mkWorld db2 [] 0%nat)) as H.
  unfold observe, runCheck, completionOf, dbAfter, outOf.
  destruct (runCheckAsync cfg tk monitor (mkWorld db1 [] 0%nat)) as [c1 w1].
  destruct (runCheckAsync cfg tk monitor (mkWorld db2 [] 0%nat)) as [c2 w2].
  simpl in *. destruct H as (-> & Ho & _ & Hl' & Hk'); [done|].
  by rewrite Ho, Hl', Hk'.
Qed.

End Scope.

(** ** One call of [runCheck], path by path *)

Ltac bool_hyps :=
  repeat match goal with
         | H : bool_decide _ = true |- _ => apply bool_decide_eq_true_1 in H
         | H : bool_decide _ = false |- _ => apply bool_decide_eq_false_1 in H
         end.

Section Paths.

Variables (cfg : Config) (tk : Tick) (monitor : Monitor) (db : Database).

(** A call in which no dispatch raised ends normally and leaves the database
    of [bookkeeping]. *)
Lemma runCheck_no_raise :
  noDispatchRaised (outOf (runCheck cfg tk monitor db)) = true →
  dbAfter (runCheck cfg tk monitor db) = bookkeeping tk monitor db
  ∧ completionOf (runCheck cfg tk monitor db) = Normal tt.
Proof.
  unfold bookkeeping. destruct tk as [p n t], cfg as [tp dbg].
  exec_run.
  all: done.
Qed.

(** When ntfy.sh accepts every POST, no dispatch raises. *)
Lemma all_delivered_no_raise :
  (∀ i, delivered (ntfy tk i) = true) →
  noDispatchRaised (outOf (runCheck cfg tk monitor db)) = true.
Proof.
  intros Hd. destruct tk as [p n t], cfg as [tp dbg]. simpl in Hd.
  pose proof (Hd 0%nat) as H0. pose proof (Hd 1%nat) as H1.
  exec_run.
  all: done.
Qed.

End Paths.

(** ** Consecutive failing ticks *)

(** One failing tick, by the streak row it finds. *)
Lemma failing_tick cfg tk monitor db e :
  probe tk = Failed e →
  match selectStreak db (name monitor) with
  | None =>
      selectStreak (dbAfter (runCheck cfg tk monitor db)) (name monitor)
        = Some (mkStreakRow (now tk) 0)
      ∧ countEvents ErrorThreshold (outOf (runCheck cfg tk monitor db)) = 0%nat
  | Some s =>
      if truthy (streak_notified s) then
        selectStreak (dbAfter (runCheck cfg tk monitor db)) (name monitor) = Some s
        ∧ countEvents ErrorThreshold (outOf (runCheck cfg tk monitor db)) = 0%nat
      else if 900 <=? now tk - started_at s then
        countEvents ErrorThreshold (outOf (runCheck cfg tk monitor db)) = 1%nat
        ∧ selectStreak (dbAfter (runCheck cfg tk monitor db)) (name monitor)
          = Some (if noDispatchRaised (outOf (runCheck cfg tk monitor db))
                  then mkStreakRow (started_at s) 1 else s)
      else
        selectStreak (dbAfter (runCheck cfg tk monitor db)) (name monitor) = Some s
        ∧ countEvents ErrorThreshold (outOf (runCheck cfg tk monitor db)) = 0%nat
  end.
Proof.
  intros Hp. destruct tk as [p n t], cfg as [tp dbg]. simpl in Hp. subst p.
  unfold selectStreak.
  destruct (error_streak db !! name monitor) as [s|] eqn:Hs.
  - destruct (truthy (streak_notified s)) eqn:Ht;
      [|destruct (Z.leb_spec 900 (t - started_at s)) as [Hle|Hlt]; simpl].
    all: exec_run; simpl; rewrite ?lookup_alter_eq, ?Hs; try done.
    all: repeat match goal with
                | H : (_ <=? _) = true |- _ => apply Z.leb_le in H
                | H : (_ <=? _) = false |- _ => apply Z.leb_gt in H
                end; lia.
  - exec_run; simpl; rewrite ?lookup_insert_eq; done.
Qed.

Section Streak.

Variables (cfg : Config) (monitor : Monitor).

(** How the streak row of the monitor moves in one call, whatever the tick. *)
Lemma streak_step tk db :
  (∀ s s',
     selectStreak db (name monitor) = Some s →
     truthy (streak_notified s) = false →
     selectStreak (dbAfter (runCheck cfg tk monitor db)) (name monitor) = Some s' →
     truthy (streak_notified s') = true →
     s' = mkStreakRow (started_at s) 1
     ∧ 900 ≤ now tk - started_at s
     ∧ failed tk = true
     ∧ countEvents ErrorThreshold (outOf (runCheck cfg tk monitor db)) = 1%nat)
  ∧ (∀ s',
       selectStreak db (name monitor) = None →
       selectStreak (dbAfter (runCheck cfg tk monitor db)) (name monitor) = Some s' →
       s' = mkStreakRow (now tk) 0)
  ∧ (∀ s,
       selectStreak db (name monitor) = Some s →
       truthy (streak_notified s) = true →
       selectStreak (dbAfter (runCheck cfg tk monitor db)) (name monitor) = Some s
       ∨ selectStreak (dbAfter (runCheck cfg tk monitor db)) (name monitor) = None
       ∨ selectStreak (dbAfter (runCheck cfg tk monitor db)) (name monitor)
         = Some (mkStreakRow (now tk) 0))
  ∧ (countEvents ErrorThreshold (outOf (runCheck cfg tk monitor db)) ≠ 0%nat →
     countEvents ErrorThreshold (outOf (runCheck cfg tk monitor db)) = 1%nat
     ∧ failed tk = true
     ∧ ∃ s, selectStreak db (name monitor) = Some s
            ∧ truthy (streak_notified s) = false
            ∧ 900 ≤ now tk - started_at s).
Proof.
  destruct tk as [p n t], cfg as [tp dbg]. unfold selectStreak, failed.
  exec_run.
  all: cbn [checks error_streak saveState deleteStreak insertStreak markStreakNotified probe now].
  all: rewrite ?lookup_alter_eq, ?lookup_insert_eq, ?lookup_delete_eq.
  all: repeat match goal with
                | H : (_ <=? _) = true |- _ => apply Z.leb_le in H
                | H : (_ <=? _) = false |- _ => apply Z.leb_gt in H
                | H : error_streak _ !! _ = _ |- _ => rewrite H
                end.
  all: repeat split; intros; simplify_eq.
  all: try congruence; try lia; try reflexivity.
  all: try (by left); try (by right; left); try (by right; right).
  all: try (eexists; split; [reflexivity|split; [assumption|lia]]).
  all: cbn [fmap option_fmap option_map] in *; by simplify_eq.
Qed.

(** Failing ticks on a streak that is already notified: nothing more is
    sent and the row stays. *)
Lemma notified_streak_ticks ticks db s :
  selectStreak db (name monitor) = Some s →
  truthy (streak_notified s) = true →
  forallb failed ticks = true →
  map (countEvents ErrorThreshold) (runTicks cfg monitor ticks db).2
    = map (λ _, 0%nat) ticks
  ∧ selectStreak (runTicks cfg monitor ticks db).1 (name monitor) = Some s.
Proof.
  revert db. induction ticks as [|tk rest IH]; intros db Hs Ht Hf; [done|].
  simpl in Hf. apply andb_prop in Hf as [Hf Hrest].
  unfold failed in Hf. destruct (probe tk) as [|e] eqn:Hp; [done|].
  pose proof (failing_tick cfg tk monitor db e Hp) as Hstep.
  rewrite Hs, Ht in Hstep. destruct Hstep as [Hs' Hc].
  specialize (IH _ Hs' Ht Hrest). simpl.
  destruct (runTicks cfg monitor rest _) as [db' outs]. simpl in *.
  destruct IH as [-> ->]. by rewrite Hc.
Qed.

(** Failing ticks on a streak that is not notified yet, no dispatch raising:
    one alert, at the first tick 15 minutes or more after the start. *)
Lemma open_streak_ticks ticks db s :
  selectStreak db (name monitor) = Some s →
  truthy (streak_notified s) = false →
  forallb failed ticks = true →
  forallb noDispatchRaised (runTicks cfg monitor ticks db).2 = true →
  map (countEvents ErrorThreshold) (runTicks cfg monitor ticks db).2
    = thresholdMarks (started_at s) ticks
  ∧ selectStreak (runTicks cfg monitor ticks db).1 (name monitor)
    = Some (if existsb (λ tk, 900 <=? now tk - started_at s) ticks
            then mkStreakRow (started_at s) 1 else s).
Proof.
  revert db. induction ticks as [|tk rest IH]; intros db Hs Ht Hf Hn; [done|].
  simpl in Hf. apply andb_prop in Hf as [Hf Hrest].
  unfold failed in Hf. destruct (probe tk) as [|e] eqn:Hp; [done|].
  pose proof (failing_tick cfg tk monitor db e Hp) as Hstep.
  rewrite Hs, Ht in Hstep. simpl in Hn |- *.
  destruct (900 <=? now tk - started_at s) eqn:Hdue.
  - destruct Hstep as [Hc Hs'].
    pose proof (notified_streak_ticks rest
                  (dbAfter (runCheck cfg tk monitor db))
                  (mkStreakRow (started_at s) 1)) as Hnext.
    destruct (runTicks cfg monitor rest _) as [db' outs]. simpl in *.
    apply andb_prop in Hn as [Hn _]. rewrite Hn in Hs'.
    destruct (Hnext Hs' eq_refl Hrest) as [-> ->]. by rewrite Hc.
  - destruct Hstep as [Hs' Hc].
    specialize (IH (dbAfter (runCheck cfg tk monitor db)) Hs' Ht Hrest).
    destruct (runTicks cfg monitor rest _) as [db' outs]. simpl in *.
    apply andb_prop in Hn as [_ Hn].
    destruct (IH Hn) as [-> ->]. by rewrite Hc.
Qed.

End Streak.

(** ** The loop of [runAllChecks] *)

(** The one way an exception leaves [runCheck]: the probe failed and the
    error-threshold dispatch raised. *)
Lemma runCheck_abrupt cfg tk monitor db e :
  completionOf (runCheck cfg tk monitor db) = Abrupt e →
  failed tk = true
  ∧ countEvents ErrorThreshold (outOf (runCheck cfg tk monitor db)) = 1%nat
  ∧ noDispatchRaised (outOf (runCheck cfg tk monitor db)) = false.
Proof.
  destruct tk as [p n t], cfg as [tp dbg]. unfold failed.
  exec_run.
  all: done.
Qed.

(** Every call starts the check of its monitor, once. *)
Lemma runCheck_started cfg tk monitor db :
  started (outOf (runCheck cfg tk monitor db)) = [name monitor].
Proof.
  destruct tk as [p n t], cfg as [tp dbg].
  exec_run.
  all: done.
Qed.

(** When no call of the pass ends with an exception, the check of every
    monitor of the pass is started, in order. *)
Lemma runAllChecks_starts_all cfg pass db :
  (∀ monitor tk db', (monitor, tk) ∈ pass →
     completionOf (runCheck cfg tk monitor db') = Normal tt) →
  completionOf (runAllChecks cfg pass db) = Normal tt
  ∧ started (outOf (runAllChecks cfg pass db)) = (λ mt, name mt.1) <$> pass.
Proof.
  revert db. induction pass as [|[monitor tk] rest IH]; intros db Hall; [done|].
  simpl.
  pose proof (Hall monitor tk db ltac:(left)) as Hc.
  pose proof (runCheck_started cfg tk monitor db) as Hs.
  destruct (runCheck cfg tk monitor db) as [[c d] o].
  unfold completionOf, outOf in *. simpl in *. subst c.
  destruct (IH d) as [Hc' Hs']; [intros; apply Hall; by right|].
  destruct (runAllChecks cfg rest d) as [[c' d'] o']. simpl in *.
  split; [done|]. unfold started in *. by rewrite omap_app, Hs, Hs'.
Qed.

(** * The claims *)

(** C1, amended.  The notified flag of a streak becomes true only in a pass
    whose probe fails at least 15 minutes after the start of the streak, the
    pass that reaches the error-threshold dispatch; a streak row is created
    with the flag off; once on, the flag stays on until the row is deleted;
    and a pass reaches the error-threshold dispatch at most once and only on
    such a streak.  So a monitor that has no streak, fails at [t0] and at
    every later tick, reaches the error-threshold dispatch exactly once, at
    the first tick with [now - t0 >= 15 minutes], provided no dispatch
    raises. *)
Theorem error_threshold_once (cfg : Config) (monitor : Monitor) :
  (∀ tk db s s',
     selectStreak db (name monitor) = Some s →
     truthy (streak_notified s) = false →
     selectStreak (dbAfter (runCheck cfg tk monitor db)) (name monitor) = Some s' →
     truthy (streak_notified s') = true →
     s' = mkStreakRow (started_at s) 1
     ∧ 900 ≤ now tk - started_at s
     ∧ failed tk = true
     ∧ countEvents ErrorThreshold (outOf (runCheck cfg tk monitor db)) = 1%nat)
  ∧ (∀ tk db s',
       selectStreak db (name monitor) = None →
       selectStreak (dbAfter (runCheck cfg tk monitor db)) (name monitor) = Some s' →
       s' = mkStreakRow (now tk) 0)
  ∧ (∀ tk db s,
       selectStreak db (name monitor) = Some s →
       truthy (streak_notified s) = true →
       selectStreak (dbAfter (runCheck cfg tk monitor db)) (name monitor) = Some s
       ∨ selectStreak (dbAfter (runCheck cfg tk monitor db)) (name monitor) = None
       ∨ selectStreak (dbAfter (runCheck cfg tk monitor db)) (name monitor)
         = Some (mkStreakRow (now tk) 0))
  ∧ (∀ tk db,
       countEvents ErrorThreshold (outOf (runCheck cfg tk monitor db)) ≠ 0%nat →
       countEvents ErrorThreshold (outOf (runCheck cfg tk monitor db)) = 1%nat
       ∧ failed tk = true
       ∧ ∃ s, selectStreak db (name monitor) = Some s
              ∧ truthy (streak_notified s) = false
              ∧ 900 ≤ now tk - started_at s)
  ∧ (∀ db tk0 rest,
       selectStreak db (name monitor) = None →
       forallb failed (tk0 :: rest) = true →
       forallb noDispatchRaised (runTicks cfg monitor (tk0 :: rest) db).2 = true →
       map (countEvents ErrorThreshold) (runTicks cfg monitor (tk0 :: rest) db).2
         = 0%nat :: thresholdMarks (now tk0) rest
       ∧ selectStreak (runTicks cfg monitor (tk0 :: rest) db).1 (name monitor)
         = Some (mkStreakRow (now tk0)
                   (if existsb (λ tk, 900 <=? now tk - now tk0) rest then 1 else 0))).
Proof.
  split; [|split; [|split; [|split]]].
  - intros tk db. apply (streak_step cfg monitor tk db).
  - intros tk db. apply (streak_step cfg monitor tk db).
  - intros tk db. apply (streak_step cfg monitor tk db).
  - intros tk db. apply (streak_step cfg monitor tk db).
  - intros db tk0 rest Hs Hf Hn.
    simpl in Hf. apply andb_prop in Hf as [Hf Hrest].
    unfold failed in Hf. destruct (probe tk0) as [|e] eqn:Hp; [done|].
    pose proof (failing_tick cfg tk0 monitor db e Hp) as Hstep.
    rewrite Hs in Hstep. destruct Hstep as [Hs' Hc].
    pose proof (open_streak_ticks cfg monitor rest
                  (dbAfter (runCheck cfg tk0 monitor db)) _ Hs' eq_refl Hrest) as Hnext.
    simpl in Hn |- *.
    destruct (runTicks cfg monitor rest _) as [db' outs]. simpl in *.
    apply andb_prop in Hn as [_ Hn].
    destruct (Hnext Hn) as [-> ->]. rewrite Hc. split; [done|].
    by destruct (existsb _ rest).
Qed.

Lemma error_threshold_once_witness :
  map (countEvents ErrorThreshold)
    (runTicks alerts bookeroMonitor
       [failingTick 0 ntfyUp; failingTick 600 ntfyUp; failingTick 900 ntfyUp;
        failingTick 960 ntfyUp] emptyDb).2
  = [0; 0; 1; 0]%nat
  ∧ selectStreak
      (runTicks alerts bookeroMonitor
         [failingTick 0 ntfyUp; failingTick 600 ntfyUp; failingTick 900 ntfyUp;
          failingTick 960 ntfyUp] emptyDb).1 "bookero"
    = Some (mkStreakRow 0 1).
Proof.
  apply (proj2 (proj2 (proj2 (proj2
           (error_threshold_once alerts bookeroMonitor))))
           emptyDb (failingTick 0 ntfyUp)
           [failingTick 600 ntfyUp; failingTick 900 ntfyUp; failingTick 960 ntfyUp]).
  - reflexivity.
  - reflexivity.
  - vm_compute. reflexivity.
Defined.

(** A dispatch that raises at the threshold tick leaves the flag off, and
    the next failing tick reaches the error-threshold dispatch again. *)
Lemma error_threshold_twice_when_dispatch_raises :
  selectStreak emptyDb "bookero" = None
  ∧ forallb failed
      [failingTick 0 ntfyUp; failingTick 900 ntfyDown; failingTick 960 ntfyUp] = true
  ∧ map (countEvents ErrorThreshold)
      (runTicks alerts bookeroMonitor
         [failingTick 0 ntfyUp; failingTick 900 ntfyDown; failingTick 960 ntfyUp]
         emptyDb).2
    = [0; 1; 1]%nat.
Proof. vm_compute. done. Qed.

(** C2, amended.  A pass whose probe returns a result and which finds a
    streak row: when the row is notified, reaches the recovery dispatch
    once, right after reading the row and before the previous state is
    read; when the row is not notified, reaches neither the recovery nor the
    error-threshold dispatch.  In both cases the streak row is gone after
    the pass provided no dispatch of the pass raised. *)
Theorem recovery_after_streak (cfg : Config) (tk : Tick) (monitor : Monitor)
    (db : Database)
    result s :
  probe tk = Returned result →
  selectStreak db (name monitor) = Some s →
  (truthy (streak_notified s) = true →
     countEvents Recovery (outOf (runCheck cfg tk monitor db)) = 1%nat
     ∧ take 4 (outOf (runCheck cfg tk monitor db)) =
         [Log (name monitor) Text.startingCheck;
          Log (name monitor) (Text.currentState +:+ state result);
          Log (name monitor) Text.recovering;
          Event Recovery (name monitor)])
  ∧ (truthy (streak_notified s) = false →
     countEvents Recovery (outOf (runCheck cfg tk monitor db)) = 0%nat
     ∧ countEvents ErrorThreshold (outOf (runCheck cfg tk monitor db)) = 0%nat)
  ∧ (noDispatchRaised (outOf (runCheck cfg tk monitor db)) = true →
     selectStreak (dbAfter (runCheck cfg tk monitor db)) (name monitor) = None).
Proof.
  intros Hp Hs. destruct tk as [p n t], cfg as [tp dbg]. simpl in Hp. subst p.
  unfold selectStreak in *.
  exec_run.
  all: cbn [error_streak saveState deleteStreak insertStreak].
  all: rewrite ?lookup_delete_eq.
  all: simplify_eq; repeat split; intros; try done; congruence.
Qed.

Lemma recovery_after_streak_witness :
  countEvents Recovery
    (outOf (runCheck alerts (resultTick "unavailable" 1000 ntfyUp) bookeroMonitor
              notifiedStreak)) = 1%nat
  ∧ selectStreak
      (dbAfter (runCheck alerts (resultTick "unavailable" 1000 ntfyUp) bookeroMonitor
                  notifiedStreak)) "bookero" = None.
Proof.
  pose proof (recovery_after_streak alerts (resultTick "unavailable" 1000 ntfyUp)
                bookeroMonitor notifiedStreak _ (mkStreakRow 0 1) eq_refl eq_refl)
    as (H1 & _ & H3).
  split.
  - apply H1. reflexivity.
  - apply H3. vm_compute. reflexivity.
Defined.

(** The recovery dispatch raises: the streak row is still there after the
    pass. *)
Lemma recovery_dispatch_failure_keeps_streak :
  selectStreak notifiedStreak "bookero" = Some (mkStreakRow 0 1)
  ∧ probe (resultTick "unavailable" 1000 ntfyDown)
    = Returned (mkCheckResult "unavailable" EmptyString)
  ∧ countEvents Recovery
      (outOf (runCheck alerts (resultTick "unavailable" 1000 ntfyDown) bookeroMonitor
                notifiedStreak)) = 1%nat
  ∧ selectStreak
      (dbAfter (runCheck alerts (resultTick "unavailable" 1000 ntfyDown) bookeroMonitor
                  notifiedStreak)) "bookero" = Some (mkStreakRow 0 1).
Proof. vm_compute. done. Qed.

(** C3, amended.  With a previous record, a pass whose probe returns a
    result and in which no dispatch raises: if the state differs from the
    previous one, reaches the state-change dispatch once and appends the
    record with [notified = 1]; if the state is the same, appends the record
    with [notified = 0], with or without a debug topic (with one, the debug
    ping is dispatched). *)
Theorem state_change_notifies (cfg : Config) (tk : Tick) (monitor : Monitor)
    (db : Database)
    result previous :
  probe tk = Returned result →
  getLastState db (name monitor) = Some previous →
  noDispatchRaised (outOf (runCheck cfg tk monitor db)) = true →
  (state result ≠ previous →
     countEvents StateChanged (outOf (runCheck cfg tk monitor db)) = 1%nat
     ∧ checks (dbAfter (runCheck cfg tk monitor db)) =
         checks db ++
           [mkCheckRow (nextId (checks db)) (name monitor) (state result) (now tk) 1])
  ∧ (state result = previous →
     countEvents StateChanged (outOf (runCheck cfg tk monitor db)) = 0%nat
     ∧ countEvents DebugPing (outOf (runCheck cfg tk monitor db))
       = (if truthyStr (NTFY_DEBUG_TOPIC cfg) then 1 else 0)%nat
     ∧ checks (dbAfter (runCheck cfg tk monitor db)) =
         checks db ++
           [mkCheckRow (nextId (checks db)) (name monitor) (state result) (now tk) 0]).
Proof.
  intros Hp Hl. destruct tk as [p n t], cfg as [tp dbg]. simpl in Hp. subst p.
  exec_run.
  all: bool_hyps; done.
Qed.

Lemma state_change_notifies_witness :
  checks (dbAfter (runCheck alerts (resultTick "available" 60 ntfyUp) bookeroMonitor
                     seenUnavailable))
  = [mkCheckRow 1 "bookero" "unavailable" 0 1;
     mkCheckRow 2 "bookero" "available" 60 1].
Proof.
  pose proof (state_change_notifies alerts (resultTick "available" 60 ntfyUp)
                bookeroMonitor seenUnavailable _ "unavailable" eq_refl eq_refl)
    as H.
  apply H; [vm_compute; reflexivity | done].
Defined.

(** The state changed, the dispatch raises: the record is not appended. *)
Lemma state_change_not_recorded_when_dispatch_raises :
  getLastState seenUnavailable "bookero" = Some "unavailable"
  ∧ countEvents StateChanged
      (outOf (runCheck alerts (resultTick "available" 60 ntfyDown) bookeroMonitor
                seenUnavailable)) = 1%nat
  ∧ checks (dbAfter (runCheck alerts (resultTick "available" 60 ntfyDown)
                       bookeroMonitor seenUnavailable))
    = checks seenUnavailable.
Proof. vm_compute. done. Qed.

(** C4, amended.  When a dispatch raises in a pass whose probe returned a
    result, the pass appends no record; the failure is handled like a probe
    failure (a notified streak is kept when it was the recovery dispatch
    that raised, otherwise a streak is started at the time of the pass);
    the call itself ends normally, so the loop goes on to the monitors that
    follow. *)
Theorem dispatch_failure_blocks_persistence (cfg : Config) (tk : Tick) (monitor : Monitor)
    (db : Database)
    result :
  probe tk = Returned result →
  noDispatchRaised (outOf (runCheck cfg tk monitor db)) = false →
  completionOf (runCheck cfg tk monitor db) = Normal tt
  ∧ checks (dbAfter (runCheck cfg tk monitor db)) = checks db
  ∧ ((∃ s, selectStreak db (name monitor) = Some s
           ∧ truthy (streak_notified s) = true
           ∧ selectStreak (dbAfter (runCheck cfg tk monitor db)) (name monitor) = Some s)
     ∨ selectStreak (dbAfter (runCheck cfg tk monitor db)) (name monitor)
       = Some (mkStreakRow (now tk) 0))
  ∧ (∀ rest,
       runAllChecks cfg ((monitor, tk) :: rest) db =
       (completionOf (runAllChecks cfg rest (dbAfter (runCheck cfg tk monitor db))),
        dbAfter (runAllChecks cfg rest (dbAfter (runCheck cfg tk monitor db))),
        outOf (runCheck cfg tk monitor db)
          ++ outOf (runAllChecks cfg rest (dbAfter (runCheck cfg tk monitor db))))).
Proof.
  intros Hp Hn.
  assert (completionOf (runCheck cfg tk monitor db) = Normal tt) as Hc.
  { revert Hn. destruct tk as [p n t], cfg as [tp dbg]. simpl in Hp. subst p.
    exec_run. all: done. }
  split; [done|]. split; [|split].
  - revert Hn. clear Hc. destruct tk as [p n t], cfg as [tp dbg]. simpl in Hp. subst p.
    exec_run. all: done.
  - revert Hn. clear Hc. destruct tk as [p n t], cfg as [tp dbg]. simpl in Hp. subst p.
    unfold selectStreak.
    exec_run.
    all: cbn [error_streak saveState deleteStreak insertStreak now].
    all: rewrite ?lookup_insert_eq; try done; try (by right).
    all: intros _; left; eexists; done.
  - intros rest. simpl.
    destruct (runCheck cfg tk monitor db) as [[c d] o].
    unfold completionOf, dbAfter, outOf in *. simpl in *. subst c.
    by destruct (runAllChecks cfg rest d) as [[c' d'] o'].
Qed.

Lemma dispatch_failure_blocks_persistence_witness :
  checks (dbAfter (runCheck alerts (resultTick "open" 60 ntfyDown) sportivoMonitor
                     emptyDb)) = []
  ∧ completionOf (runCheck alerts (resultTick "open" 60 ntfyDown) sportivoMonitor
                    emptyDb) = Normal tt.
Proof.
  pose proof (dispatch_failure_blocks_persistence alerts
                (resultTick "open" 60 ntfyDown) sportivoMonitor emptyDb _ eq_refl)
    as H.
  destruct H as (Hc & Hk & _); [vm_compute; reflexivity|].
  split; [exact Hk | exact Hc].
Defined.

(** The dispatcher raises on a first observation: no record is appended and
    a streak is started instead of cleared. *)
Lemma dispatch_failure_appends_nothing :
  noDispatchRaised
    (outOf (runCheck alerts
              (mkTick (Returned (mkCheckResult "open" "Rejestracja otwarta"))
                 (λ _, Rejected "Unable to connect") 60)
              sportivoMonitor emptyDb)) = false
  ∧ checks
      (dbAfter (runCheck alerts
                  (mkTick (Returned (mkCheckResult "open" "Rejestracja otwarta"))
                     (λ _, Rejected "Unable to connect") 60)
                  sportivoMonitor emptyDb)) = []
  ∧ selectStreak
      (dbAfter (runCheck alerts
                  (mkTick (Returned (mkCheckResult "open" "Rejestracja otwarta"))
                     (λ _, Rejected "Unable to connect") 60)
                  sportivoMonitor emptyDb)) "sportivo"
    = Some (mkStreakRow 60 0).
Proof. vm_compute. done. Qed.

(** C5, amended.  On a store with no record of the monitor, a pass whose
    probe returns a result and in which no dispatch raises reaches the
    first-observation dispatch once, whatever the observed state, and
    appends one record with that state and [notified = 1]. *)
Theorem first_observation_notifies (cfg : Config) (tk : Tick) (monitor : Monitor)
    (db : Database)
    result :
  probe tk = Returned result →
  getLastState db (name monitor) = None →
  noDispatchRaised (outOf (runCheck cfg tk monitor db)) = true →
  completionOf (runCheck cfg tk monitor db) = Normal tt
  ∧ countEvents FirstObservation (outOf (runCheck cfg tk monitor db)) = 1%nat
  ∧ checks (dbAfter (runCheck cfg tk monitor db)) =
      checks db ++
        [mkCheckRow (nextId (checks db)) (name monitor) (state result) (now tk) 1].
Proof.
  intros Hp Hl. destruct tk as [p n t], cfg as [tp dbg]. simpl in Hp. subst p.
  exec_run.
  all: done.
Qed.

Lemma first_observation_notifies_witness :
  checks (dbAfter (runCheck alerts (resultTick "available" 60 ntfyUp) bookeroMonitor
                     emptyDb))
  = [mkCheckRow 1 "bookero" "available" 60 1].
Proof.
  apply (first_observation_notifies alerts (resultTick "available" 60 ntfyUp)
           bookeroMonitor emptyDb _ eq_refl eq_refl).
  vm_compute. reflexivity.
Defined.

(** First observation, the dispatch raises: nothing is recorded. *)
Lemma first_observation_not_recorded_when_dispatch_raises :
  getLastState emptyDb "bookero" = None
  ∧ probe (resultTick "available" 60 ntfyDown)
    = Returned (mkCheckResult "available" EmptyString)
  ∧ countEvents FirstObservation
      (outOf (runCheck alerts (resultTick "available" 60 ntfyDown) bookeroMonitor
                emptyDb)) = 1%nat
  ∧ checks (dbAfter (runCheck alerts (resultTick "available" 60 ntfyDown)
                       bookeroMonitor emptyDb)) = [].
Proof. vm_compute. done. Qed.

(** C6, at the failing input.  A pass over bookero then sportivo, bookero in
    a streak 15 minutes old, its probe failing and ntfy.sh answering 503 to
    the error-threshold alert: the exception of the dispatch leaves
    [runCheck] and then the loop, and the check of sportivo is never started,
    although on its own it ends normally. *)
Theorem threshold_dispatch_failure_aborts_pass :
  runAllChecks alerts abortedPass openStreak
  = (Abrupt "ntfy error: 503 Service Unavailable",
     openStreak,
     [Log "bookero" Text.startingCheck;
      Log "bookero" "ERROR: HTTP 500 Internal Server Error";
      Log "bookero" Text.thresholdReached;
      Event ErrorThreshold "bookero";
      Post "alerts" (errorPayload "bookero" "HTTP 500 Internal Server Error")
        (Responded false "503 Service Unavailable")])
  ∧ started (outOf (runAllChecks alerts abortedPass openStreak)) = ["bookero"]
  ∧ (name <$> (fst <$> abortedPass)) = ["bookero"; "sportivo"]
  ∧ completionOf
      (runCheck alerts
         (mkTick (Returned (mkCheckResult "open" "Rejestracja otwarta")) ntfyUp 900)
         sportivoMonitor openStreak)
    = Normal tt.
Proof. vm_compute. done. Qed.

(** C7.  A pass whose probe fails leaves the [checks] table as it was: no
    record is appended, the last state of every monitor is what it was, and
    the pass reaches no dispatcher call of the content-state logic (the only
    notification a failing pass can send is the error-threshold alert). *)
Theorem probe_failure_leaves_checks (cfg : Config) (tk : Tick) (monitor : Monitor)
    (db : Database)
    e :
  probe tk = Failed e →
  checks (dbAfter (runCheck cfg tk monitor db)) = checks db
  ∧ (∀ m, getLastState (dbAfter (runCheck cfg tk monitor db)) m = getLastState db m)
  ∧ (∀ k, k ∈ eventKinds (outOf (runCheck cfg tk monitor db)) → k = ErrorThreshold).
Proof.
  intros Hp.
  assert (checks (dbAfter (runCheck cfg tk monitor db)) = checks db
          ∧ (∀ k, k ∈ eventKinds (outOf (runCheck cfg tk monitor db)) → k = ErrorThreshold))
    as [Hc Hk].
  { destruct tk as [p n t], cfg as [tp dbg]. simpl in Hp. subst p.
    exec_run.
    all: split; [done|].
    all: intros k Hk; cbn in Hk.
    all: try (by apply elem_of_nil in Hk).
    all: by apply list_elem_of_singleton in Hk. }
  split; [done|]. split; [|done].
  intros m. unfold getLastState. by rewrite Hc.
Qed.

Lemma probe_failure_leaves_checks_witness :
  checks (dbAfter (runCheck alerts (failingTick 60 ntfyUp) bookeroMonitor twoMonitors))
  = checks twoMonitors.
Proof.
  apply (probe_failure_leaves_checks alerts (failingTick 60 ntfyUp) bookeroMonitor
           twoMonitors _ eq_refl).
Defined.

(** C8.  [getLastState] returns the state of the record of the monitor with
    the highest id, or nothing when the monitor has no record, and a record
    just appended is the last state of its monitor and of no other; a pass
    for one monitor leaves the rows of every other monitor, in both tables,
    as they were, and what it does (how it ends, its effects, the last state
    and the streak it leaves) depends on the database only through the rows
    of its own monitor (the id given to a new record is the one thing that
    depends on the other rows of [checks]). *)
Theorem last_state_most_recent_and_scoped (cfg : Config) (tk : Tick)
    (monitor : Monitor) (db : Database) :
  (∀ m,
     match getLastState db m with
     | Some st =>
         ∃ r, r ∈ checks db ∧ row_monitor r = m ∧ row_state r = st
              ∧ ∀ r', r' ∈ checks db → row_monitor r' = m → row_id r' ≤ row_id r
     | None => ∀ r, r ∈ checks db → row_monitor r ≠ m
     end)
  ∧ (∀ t m st b,
       getLastState (saveState t db m st b) m = Some st
       ∧ ∀ m', m' ≠ m →
           getLastState (saveState t db m st b) m' = getLastState db m'
           ∧ selectStreak (saveState t db m st b) m' = selectStreak db m')
  ∧ (∀ m', m' ≠ name monitor →
       rowsOf m' (checks (dbAfter (runCheck cfg tk monitor db))) = rowsOf m' (checks db)
       ∧ getLastState (dbAfter (runCheck cfg tk monitor db)) m' = getLastState db m'
       ∧ selectStreak (dbAfter (runCheck cfg tk monitor db)) m' = selectStreak db m')
  ∧ (∀ db2,
       rowsOf (name monitor) (checks db2) = rowsOf (name monitor) (checks db) →
       selectStreak db2 (name monitor) = selectStreak db (name monitor) →
       completionOf (runCheck cfg tk monitor db2) = completionOf (runCheck cfg tk monitor db)
       ∧ outOf (runCheck cfg tk monitor db2) = outOf (runCheck cfg tk monitor db)
       ∧ getLastState (dbAfter (runCheck cfg tk monitor db2)) (name monitor)
         = getLastState (dbAfter (runCheck cfg tk monitor db)) (name monitor)
       ∧ selectStreak (dbAfter (runCheck cfg tk monitor db2)) (name monitor)
         = selectStreak (dbAfter (runCheck cfg tk monitor db)) (name monitor)).
Proof.
  split; [|split; [|split]].
  - intros m. unfold getLastState.
    pose proof (maxById_spec (rowsOf m (checks db))) as H.
    destruct (maxById (rowsOf m (checks db))) as [r|]; simpl.
    + destruct H as [[Hm Hin]%list_elem_of_filter Hmax]. exists r.
      repeat split; try done.
      intros r' Hr' Hm'. apply Hmax. by apply list_elem_of_filter.
    + intros r Hr Hm. eapply (filter_nil_not_elem_of _ _ r H); done.
  - intros t m st b. split; [apply getLastState_saveState_eq|].
    intros m' Hne. split; [|done].
    apply getLastState_rowsOf. by apply rowsOf_saveState_ne.
  - intros m' Hne. destruct (runCheck_frame cfg tk monitor db m' Hne) as [Hr Hs].
    split; [done|]. split; [|done]. by apply getLastState_rowsOf.
  - intros db2 Hrows Hstreak.
    pose proof (runCheck_view cfg tk monitor db2 db
                  (getLastState_rowsOf _ _ _ Hrows) Hstreak) as H.
    unfold observe in H. by simplify_eq.
Qed.

Lemma last_state_most_recent_and_scoped_witness :
  getLastState
    (dbAfter (runCheck alerts (resultTick "available" 60 ntfyUp) bookeroMonitor
                twoMonitors)) "sportivo"
  = getLastState twoMonitors "sportivo".
Proof.
  apply (proj1 (proj2 (proj2
           (last_state_most_recent_and_scoped alerts
              (resultTick "available" 60 ntfyUp) bookeroMonitor twoMonitors)))
           "sportivo").
  done.
Defined.

(** C9.  A monitor of the registry is in the list the pass runs over unless
    the environment variable [MONITOR_<NAME>] (the name in upper case) is
    the string [false]: an unset variable or any other value keeps it, and
    setting the variable of one monitor does not change whether a monitor
    with another key is kept.  The keys of the two monitors of the registry
    are [MONITOR_BOOKERO] and [MONITOR_SPORTIVO]. *)
Theorem monitor_enabled_unless_false (env : gmap string string)
    (registry : list Monitor) :
  (∀ m, m ∈ monitors env registry ↔
        m ∈ registry ∧ env !! envKey m ≠ Some "false")
  ∧ (∀ m, m ∈ registry → env !! envKey m = None → m ∈ monitors env registry)
  ∧ (∀ m v, m ∈ registry → v ≠ "false" →
            m ∈ monitors (<[envKey m := v]> env) registry)
  ∧ (∀ m, m ∉ monitors (<[envKey m := "false"]> env) registry)
  ∧ (∀ m1 m2 v, envKey m1 ≠ envKey m2 →
       (m2 ∈ monitors (<[envKey m1 := v]> env) registry ↔ m2 ∈ monitors env registry))
  ∧ map envKey all = ["MONITOR_BOOKERO"; "MONITOR_SPORTIVO"]
  ∧ monitors ∅ all = all.
Proof.
  unfold monitors. split; [|split; [|split; [|split; [|split; [|split]]]]].
  - intros m. rewrite list_elem_of_filter. tauto.
  - intros m Hm Hnone. apply list_elem_of_filter. by rewrite Hnone.
  - intros m v Hm Hv. apply list_elem_of_filter. rewrite lookup_insert_eq.
    split; [congruence|done].
  - intros m [H _]%list_elem_of_filter. by rewrite lookup_insert_eq in H.
  - intros m1 m2 v Hne. rewrite !list_elem_of_filter.
    by rewrite lookup_insert_ne.
  - reflexivity.
  - reflexivity.
Qed.

(** C10, amended.  With [NTFY_TOPIC] unset (or empty), every dispatch on the
    primary channel returns without error and without a POST, and the only
    POST a pass can make is the debug ping to [NTFY_DEBUG_TOPIC]; the
    bookkeeping goes on as if delivery had succeeded: a first observation
    and a state change are recorded with [notified = 1], a streak past the
    threshold gets [notified = 1], and the database after the pass is the one
    a configured topic with every POST delivered would leave. *)
Theorem unset_topic_bookkeeping (cfg : Config) (tk : Tick) (monitor : Monitor)
    (db : Database) :
  truthyStr (NTFY_TOPIC cfg) = false →
  (∀ payload w, sendNotification cfg tk payload None w = (Normal tt, w))
  ∧ (∀ m e w, notifyError cfg tk m e w = (Normal tt, w))
  ∧ (∀ w, notifyRecovery cfg tk monitor w = (Normal tt, w))
  ∧ (∀ topic p a,
       Post topic p a ∈ outOf (runCheck cfg tk monitor db) →
       NTFY_DEBUG_TOPIC cfg = Some topic
       ∧ countEvents DebugPing (outOf (runCheck cfg tk monitor db)) = 1%nat)
  ∧ (∀ result,
       probe tk = Returned result →
       getLastState db (name monitor) = None →
       checks (dbAfter (runCheck cfg tk monitor db)) =
         checks db ++
           [mkCheckRow (nextId (checks db)) (name monitor) (state result) (now tk) 1])
  ∧ (∀ result previous,
       probe tk = Returned result →
       getLastState db (name monitor) = Some previous →
       state result ≠ previous →
       checks (dbAfter (runCheck cfg tk monitor db)) =
         checks db ++
           [mkCheckRow (nextId (checks db)) (name monitor) (state result) (now tk) 1])
  ∧ (∀ e s,
       probe tk = Failed e →
       selectStreak db (name monitor) = Some s →
       truthy (streak_notified s) = false →
       900 ≤ now tk - started_at s →
       selectStreak (dbAfter (runCheck cfg tk monitor db)) (name monitor)
         = Some (mkStreakRow (started_at s) 1)
       ∧ countEvents ErrorThreshold (outOf (runCheck cfg tk monitor db)) = 1%nat
       ∧ postAnswers (outOf (runCheck cfg tk monitor db)) = [])
  ∧ (∀ topic,
       (∀ i, delivered (ntfy tk i) = true) →
       dbAfter (runCheck cfg tk monitor db)
       = dbAfter (runCheck (mkConfig (Some topic) (NTFY_DEBUG_TOPIC cfg)) tk monitor db)).
Proof.
  intros Htp.
  split; [|split; [|split]].
  { intros payload w. unfold sendNotification. simpl. by rewrite Htp. }
  { intros m e w. unfold notifyError. by rewrite Htp. }
  { intros w. unfold notifyRecovery. by rewrite Htp. }
  split; [|split; [|split; [|split]]].
  - destruct tk as [p n t], cfg as [tp dbg]. simpl in Htp.
    exec_run.
    all: intros topic pl a Hin.
    all: repeat (apply elem_of_cons in Hin as [Hin|Hin]; [try done|]).
    all: try (by apply elem_of_nil in Hin).
    all: simplify_eq.
    all: destruct dbg as [d|]; [split; [reflexivity|done] | done].
  - intros result Hp Hl. destruct tk as [p n t], cfg as [tp dbg]. simpl in *. subst p.
    exec_run. all: done.
  - intros result previous Hp Hl Hne.
    destruct tk as [p n t], cfg as [tp dbg]. simpl in *. subst p.
    exec_run. all: bool_hyps; done.
  - intros e s Hp Hs Ht Hdue.
    pose proof (failing_tick cfg tk monitor db e Hp) as Hstep.
    rewrite Hs, Ht in Hstep. apply Z.leb_le in Hdue. rewrite Hdue in Hstep.
    destruct Hstep as [Hc Hs'].
    assert (postAnswers (outOf (runCheck cfg tk monitor db)) = []) as Hno.
    { clear Hc Hs'. destruct tk as [p n t], cfg as [tp dbg]. simpl in *. subst p.
      exec_run. all: done. }
    unfold noDispatchRaised in Hs'. rewrite Hno in Hs'. done.
  - intros topic Hd.
    pose proof (all_delivered_no_raise cfg tk monitor db Hd) as H1.
    pose proof (all_delivered_no_raise (mkConfig (Some topic) (NTFY_DEBUG_TOPIC cfg))
                  tk monitor db Hd) as H2.
    apply runCheck_no_raise in H1 as [-> _].
    by apply runCheck_no_raise in H2 as [-> _].
Qed.

Lemma unset_topic_bookkeeping_witness :
  checks (dbAfter (runCheck (mkConfig None None) (resultTick "available" 60 ntfyDown)
                     bookeroMonitor emptyDb))
  = [mkCheckRow 1 "bookero" "available" 60 1].
Proof.
  pose proof (unset_topic_bookkeeping (mkConfig None None)
                (resultTick "available" 60 ntfyDown) bookeroMonitor emptyDb eq_refl)
    as (_ & _ & _ & _ & H & _).
  apply (H _ eq_refl eq_refl).
Defined.

(** [NTFY_TOPIC] unset, [NTFY_DEBUG_TOPIC] set, state unchanged: the debug
    dispatch makes a POST and raises when ntfy.sh answers 503, and the
    record of the pass is not appended. *)
Lemma debug_ping_is_posted_without_primary_topic :
  NTFY_TOPIC debugOnly = None
  ∧ sendNotification debugOnly (resultTick "unavailable" 60 ntfyDown)
      (mkPayload (notification bookeroMonitor (mkCheckResult "unavailable" EmptyString)
                    (Some "unavailable")) (url bookeroMonitor))
      (NTFY_DEBUG_TOPIC debugOnly) (mkWorld seenUnavailable [] 0%nat)
    = (Abrupt "ntfy error: 503 Service Unavailable",
       mkWorld seenUnavailable
         [Post "debug"
            (mkPayload (notification bookeroMonitor
                          (mkCheckResult "unavailable" EmptyString)
                          (Some "unavailable")) (url bookeroMonitor))
            (Responded false "503 Service Unavailable")] 1%nat)
  ∧ postAnswers
      (outOf (runCheck debugOnly (resultTick "unavailable" 60 ntfyDown) bookeroMonitor
                seenUnavailable))
    = [Responded false "503 Service Unavailable"]
  ∧ checks (dbAfter (runCheck debugOnly (resultTick "unavailable" 60 ntfyDown)
                       bookeroMonitor seenUnavailable))
    = checks seenUnavailable.
Proof. vm_compute. done. Qed.

(** * More properties of the engine *)

(** ** The [checks] table only grows *)

(** What one call does to [checks]: nothing, or one row appended. *)
Lemma runCheck_appends cfg tk monitor db :
  checks (dbAfter (runCheck cfg tk monitor db)) = checks db
  ∨ ∃ result (b : bool),
      probe tk = Returned result
      ∧ checks (dbAfter (runCheck cfg tk monitor db)) =
          checks db ++
            [mkCheckRow (nextId (checks db)) (name monitor) (state result) (now tk)
               (if b then 1 else 0)].
Proof.
  destruct tk as [p n t], cfg as [tp dbg].
  exec_run.
  all: try (by left).
  all: right; eexists _, _; split; [reflexivity|]; done.
Qed.

(** X1.  A call of [runCheck] never updates or deletes a record: it leaves
    [checks] as it is or appends exactly one row, for its own monitor, with
    the observed state, the clock of the store, [notified] 0 or 1 and the
    next id; so the table before a pass is a prefix of the table after it,
    and a pass appends at most one row per monitor. *)
Theorem checks_append_only (cfg : Config) :
  (∀ tk monitor db,
     checks (dbAfter (runCheck cfg tk monitor db)) = checks db
     ∨ ∃ result (b : bool),
         probe tk = Returned result
         ∧ checks (dbAfter (runCheck cfg tk monitor db)) =
             checks db ++
               [mkCheckRow (nextId (checks db)) (name monitor) (state result)
                  (now tk) (if b then 1 else 0)])
  ∧ (∀ pass db,
       checks db `prefix_of` checks (dbAfter (runAllChecks cfg pass db))
       ∧ (length (checks (dbAfter (runAllChecks cfg pass db)))
          ≤ length (checks db) + length pass)%nat).
Proof.
  split; [intros; apply runCheck_appends|].
  induction pass as [|[monitor tk] rest IH]; intros db.
  - simpl. split; [done|]. unfold dbAfter. simpl. lia.
  - simpl. pose proof (runCheck_appends cfg tk monitor db) as Hone.
    destruct (runCheck cfg tk monitor db) as [[c d] o].
    unfold dbAfter in *. simpl in *.
    assert (checks db `prefix_of` checks d ∧ (length (checks d) ≤ S (length (checks db)))%nat)
      as [Hp Hl].
    { destruct Hone as [->|(result & b & _ & ->)].
      - split; [done|lia].
      - split; [by apply prefix_app_r|]. rewrite length_app. simpl. lia. }
    destruct c.
    + specialize (IH d). destruct (runAllChecks cfg rest d) as [[c' d'] o'].
      simpl in *. destruct IH as [Hp' Hl'].
      split; [by etrans|lia].
    + simpl. split; [done|lia].
Qed.

(** ** Ids and insertion order *)

Lemma idsAscending_snoc t r :
  idsAscending t = true →
  (∀ r', r' ∈ t → row_id r' < row_id r) →
  idsAscending (t ++ [r]) = true.
Proof.
  induction t as [|a t IH]; intros Ht Hlt; [done|].
  simpl in *. apply andb_prop in Ht as [Ha Ht].
  apply andb_true_intro. split.
  - rewrite forallb_app, Ha. simpl.
    rewrite andb_true_r. apply Z.ltb_lt, Hlt. left.
  - apply IH; [done|]. intros r' Hr'. apply Hlt. by right.
Qed.

Lemma idsAscending_filter (P : CheckRow → Prop) `{∀ r, Decision (P r)} t :
  idsAscending t = true → idsAscending (filter P t) = true.
Proof.
  induction t as [|a t IH]; intros Ht; [done|].
  simpl in Ht. apply andb_prop in Ht as [Ha Ht].
  rewrite filter_cons. destruct (decide (P a)); [|by apply IH].
  simpl. rewrite IH by done. rewrite andb_true_r.
  apply forallb_forall. intros r' Hr'.
  rewrite forallb_forall in Ha. apply Ha.
  apply list_elem_of_In in Hr'. apply list_elem_of_In.
  by apply list_elem_of_filter in Hr' as [_ ?].
Qed.

Lemma maxById_ascending rows :
  idsAscending rows = true → maxById rows = last rows.
Proof.
  induction rows as [|a rows IH]; intros Ht; [done|].
  simpl in Ht. apply andb_prop in Ht as [Ha Ht].
  simpl. rewrite IH by done.
  destruct rows as [|b rows]; [done|].
  change (last (a :: b :: rows)) with (last (b :: rows)).
  pose proof (last_is_Some (b :: rows)) as [_ Hsome].
  destruct Hsome as [r Hr]; [done|]. rewrite Hr.
  assert (row_id a < row_id r) as Hlt.
  { rewrite forallb_forall in Ha. apply Z.ltb_lt, Ha.
    apply list_elem_of_In. apply last_Some in Hr as [l' ->].
    apply elem_of_app. right. left. }
  destruct (Z.ltb_spec (row_id r) (row_id a)); [lia|done].
Qed.

(** X2.  When the ids of [checks] grow along the table, they still do after
    a call of [runCheck] and after a whole pass: every row a pass appends
    gets an id above all the ids there. *)
Theorem ids_stay_ascending (cfg : Config) (pass : list (Monitor * Tick))
    (db : Database) :
  idsAscending (checks db) = true →
  idsAscending (checks (dbAfter (runAllChecks cfg pass db))) = true
  ∧ ∀ tk monitor,
      idsAscending (checks (dbAfter (runCheck cfg tk monitor db))) = true.
Proof.
  assert (Hone : ∀ tk monitor db',
             idsAscending (checks db') = true →
             idsAscending (checks (dbAfter (runCheck cfg tk monitor db'))) = true).
  { intros tk monitor db' Ht.
    destruct (runCheck_appends cfg tk monitor db') as [->|(result & b & _ & ->)];
      [done|].
    apply idsAscending_snoc; [done|]. intros r' Hr'. simpl. by apply nextId_gt. }
  intros Ht. split; [|intros; by apply Hone].
  revert db Ht. induction pass as [|[monitor tk] rest IH]; intros db Ht; [done|].
  simpl. specialize (Hone tk monitor db Ht).
  destruct (runCheck cfg tk monitor db) as [[c d] o].
  unfold dbAfter in *. simpl in *.
  destruct c; [|done].
  specialize (IH d Hone). by destruct (runAllChecks cfg rest d) as [[c' d'] o'].
Qed.

Lemma ids_stay_ascending_witness :
  idsAscending (checks twoMonitors) = true
  ∧ idsAscending (checks (dbAfter (runAllChecks alerts quietPass twoMonitors))) = true.
Proof.
  split; [reflexivity|].
  apply (proj1 (ids_stay_ascending alerts quietPass twoMonitors eq_refl)).
Defined.

(** X3.  When the ids grow along the table, the last state of a monitor is
    the state of the row inserted last for it: the order by id that
    [getLastState] asks for is the order of insertion. *)
Theorem last_state_is_last_inserted (db : Database) (m : string) :
  idsAscending (checks db) = true →
  getLastState db m = row_state <$> last (rowsOf m (checks db)).
Proof.
  intros Ht. unfold getLastState, rowsOf.
  by rewrite maxById_ascending by by apply idsAscending_filter.
Qed.

Lemma last_state_is_last_inserted_witness :
  idsAscending (checks twoMonitors) = true
  ∧ getLastState twoMonitors "bookero"
    = row_state <$> last (rowsOf "bookero" (checks twoMonitors)).
Proof.
  split; [reflexivity|].
  apply (last_state_is_last_inserted twoMonitors "bookero"). reflexivity.
Defined.

(** ** The streak row after a failing pass *)

(** X4.  After a pass whose probe fails the monitor has a streak row,
    whether or not a dispatch raised; the row starts at the time of the pass
    when there was none, and keeps the start it had otherwise: failing
    passes never move the start of a streak. *)
Theorem failed_probe_keeps_streak (cfg : Config) (tk : Tick) (monitor : Monitor)
    (db : Database) :
  failed tk = true →
  ∃ s, selectStreak (dbAfter (runCheck cfg tk monitor db)) (name monitor) = Some s
       ∧ started_at s = match selectStreak db (name monitor) with
                        | Some s0 => started_at s0
                        | None => now tk
                        end.
Proof.
  unfold failed. intros Hf. destruct (probe tk) as [|e] eqn:Hp; [done|].
  pose proof (failing_tick cfg tk monitor db e Hp) as Hstep.
  destruct (selectStreak db (name monitor)) as [s|].
  - destruct (truthy (streak_notified s)); [by exists s; destruct Hstep|].
    destruct (900 <=? now tk - started_at s); [|by exists s; destruct Hstep].
    destruct Hstep as [_ ->].
    eexists; split; [reflexivity|]. by destruct (noDispatchRaised _).
  - destruct Hstep as [-> _]. by eexists.
Qed.

Lemma failed_probe_keeps_streak_witness :
  failed (failingTick 60 ntfyUp) = true
  ∧ ∃ s, selectStreak
           (dbAfter (runCheck alerts (failingTick 60 ntfyUp) bookeroMonitor openStreak))
           "bookero" = Some s
         ∧ started_at s = 0.
Proof.
  split; [reflexivity|].
  apply (failed_probe_keeps_streak alerts (failingTick 60 ntfyUp) bookeroMonitor
           openStreak).
  reflexivity.
Defined.

(** ** When [runCheck] throws *)

(** X5.  An exception leaves [runCheck] exactly when the probe failed on a
    streak that is not notified and at least 15 minutes old, [NTFY_TOPIC] is
    set and ntfy.sh does not accept the POST of the alert; the database is
    then left as it was.  Every other failure of a probe or of a dispatch is
    caught inside the call. *)
Theorem runCheck_throws_iff (cfg : Config) (tk : Tick) (monitor : Monitor)
    (db : Database) :
  ((∃ e, completionOf (runCheck cfg tk monitor db) = Abrupt e) ↔
   failed tk = true
   ∧ (∃ s, selectStreak db (name monitor) = Some s
           ∧ truthy (streak_notified s) = false
           ∧ 900 ≤ now tk - started_at s)
   ∧ truthyStr (NTFY_TOPIC cfg) = true
   ∧ delivered (ntfy tk 0%nat) = false)
  ∧ (∀ e, completionOf (runCheck cfg tk monitor db) = Abrupt e →
          dbAfter (runCheck cfg tk monitor db) = db).
Proof.
  destruct tk as [p n t], cfg as [tp dbg]. unfold failed, selectStreak.
  exec_run.
  all: cbn [probe now ntfy NTFY_TOPIC delivered].
  all: repeat match goal with
              | H : (_ <=? _) = true |- _ => apply Z.leb_le in H
              | H : (_ <=? _) = false |- _ => apply Z.leb_gt in H
              | H : error_streak _ !! _ = _ |- _ => rewrite H
              | H : ?f 0%nat = _ |- context [delivered (?f 0%nat)] => rewrite H
              end.
  all: split; [|done].
  all: split.
  all: try (by intros [? ?]).
  all: try (intros (? & (s' & ? & ? & ?) & ? & ?); simplify_eq/=; try done; try lia;
            congruence).
  all: intros _; repeat split; try done; eexists; repeat split; try done; lia.
Qed.

(** A call that is [contained] ends normally. *)
Lemma runCheck_contained cfg tk monitor db :
  contained cfg (monitor, tk) = true →
  completionOf (runCheck cfg tk monitor db) = Normal tt.
Proof.
  unfold contained, failed. destruct tk as [p n t], cfg as [tp dbg]. simpl.
  exec_run.
  all: done.
Qed.

(** X6.  A pass in which every call is contained (its probe returns, or
    [NTFY_TOPIC] is not set, or ntfy.sh accepts the first POST of the call)
    ends normally and starts the check of every monitor of the pass, in the
    order of the list, whatever fails in the probes and in the other
    dispatches. *)
Theorem contained_pass_runs_all (cfg : Config) (pass : list (Monitor * Tick))
    (db : Database) :
  forallb (contained cfg) pass = true →
  completionOf (runAllChecks cfg pass db) = Normal tt
  ∧ started (outOf (runAllChecks cfg pass db)) = (λ mt, name mt.1) <$> pass.
Proof.
  revert db. induction pass as [|[monitor tk] rest IH]; intros db Hall; [done|].
  simpl in Hall. apply andb_prop in Hall as [Hc Hrest]. simpl.
  pose proof (runCheck_contained cfg tk monitor db Hc) as Hn.
  pose proof (runCheck_started cfg tk monitor db) as Hs.
  destruct (runCheck cfg tk monitor db) as [[c d] o].
  unfold completionOf, outOf in *. simpl in *. subst c.
  destruct (IH d Hrest) as [Hc' Hs'].
  destruct (runAllChecks cfg rest d) as [[c' d'] o']. simpl in *.
  split; [done|]. unfold started in *. by rewrite omap_app, Hs, Hs'.
Qed.

Lemma contained_pass_runs_all_witness :
  forallb (contained alerts) containedPass = true
  ∧ completionOf (runAllChecks alerts containedPass emptyDb) = Normal tt
  ∧ started (outOf (runAllChecks alerts containedPass emptyDb))
    = ["bookero"; "sportivo"].
Proof.
  split; [reflexivity|].
  apply (contained_pass_runs_all alerts containedPass emptyDb). reflexivity.
Defined.

(** ** What a call sends *)

(** X7.  The dispatcher makes its POST only when a topic is there, makes
    exactly one, and never writes to the store: with neither an explicit
    topic nor [NTFY_TOPIC] it returns at once; otherwise it posts the payload
    once, to the explicit topic if given and to [NTFY_TOPIC] if not, and
    returns normally exactly when ntfy.sh answers with [response.ok]. *)
Theorem sendNotification_contract (cfg : Config) (tk : Tick) (payload : Payload)
    (topic : option string) (w : World) :
  w_db (sendNotification cfg tk payload topic w).2 = w_db w
  ∧ (truthyStr (nullish topic (NTFY_TOPIC cfg)) = false →
     sendNotification cfg tk payload topic w = (Normal tt, w))
  ∧ (truthyStr (nullish topic (NTFY_TOPIC cfg)) = true →
     ∃ t, nullish topic (NTFY_TOPIC cfg) = Some t
          ∧ w_out (sendNotification cfg tk payload topic w).2
            = w_out w ++ [Post t payload (ntfy tk (w_sent w))]
          ∧ w_sent (sendNotification cfg tk payload topic w).2 = S (w_sent w)
          ∧ ((sendNotification cfg tk payload topic w).1 = Normal tt ↔
             delivered (ntfy tk (w_sent w)) = true)).
Proof.
  unfold sendNotification, fetch, mbind, mret, Async_bind, Async_ret, throw.
  destruct (nullish topic (NTFY_TOPIC cfg)) as [t|] eqn:Ht; simpl.
  - destruct (String.eqb t EmptyString) eqn:He; simpl.
    + repeat split; done.
    + split; [by destruct (ntfy tk (w_sent w)) as [[|] ?|?]|].
      split; [done|]. intros _. exists t. split; [done|].
      destruct (ntfy tk (w_sent w)) as [[|] ?|?]; simpl; repeat split; done.
  - repeat split; done.
Qed.

(** X8.  A call makes at most two POSTs and at most one when the probe
    failed, each after reaching a call site of the dispatcher (never more
    POSTs than dispatcher calls, and at most two of those), and every POST
    goes to [NTFY_TOPIC] or to [NTFY_DEBUG_TOPIC], never to an empty
    topic. *)
Theorem posts_bounded (cfg : Config) (tk : Tick) (monitor : Monitor) (db : Database) :
  (length (postAnswers (outOf (runCheck cfg tk monitor db)))
   ≤ length (eventKinds (outOf (runCheck cfg tk monitor db))))%nat
  ∧ (length (eventKinds (outOf (runCheck cfg tk monitor db))) ≤ 2)%nat
  ∧ (failed tk = true →
     (length (eventKinds (outOf (runCheck cfg tk monitor db))) ≤ 1)%nat)
  ∧ (∀ topic p a,
       Post topic p a ∈ outOf (runCheck cfg tk monitor db) →
       topic ≠ EmptyString
       ∧ (NTFY_TOPIC cfg = Some topic ∨ NTFY_DEBUG_TOPIC cfg = Some topic)).
Proof.
  destruct tk as [p n t], cfg as [tp dbg]. unfold failed.
  exec_run.
  all: cbn [probe NTFY_TOPIC NTFY_DEBUG_TOPIC].
  all: split; [simpl; lia|split; [simpl; lia|split; [try done; intros _; simpl; lia|]]].
  all: intros topic pl a Hin.
  all: repeat (apply elem_of_cons in Hin as [Hin|Hin]; [try done|]).
  all: try (by apply elem_of_nil in Hin).
  all: simplify_eq.
  all: destruct tp as [x|], dbg as [y|]; simpl in *; try done.
  all: split; [by intros -> | auto].
Qed.

(** X9.  On an unchanged state, with no streak row and no debug topic, a
    call is silent: it reaches no dispatcher call and makes no POST, whatever
    ntfy.sh would answer, ends normally, and appends the record with
    [notified = 0]. *)
Theorem unchanged_state_is_silent (cfg : Config) (tk : Tick) (monitor : Monitor)
    (db : Database) (result : CheckResult) :
  probe tk = Returned result →
  getLastState db (name monitor) = Some (state result) →
  selectStreak db (name monitor) = None →
  truthyStr (NTFY_DEBUG_TOPIC cfg) = false →
  runCheck cfg tk monitor db
  = (Normal tt,
     saveState (now tk) db (name monitor) (state result) false,
     [Log (name monitor) Text.startingCheck;
      Log (name monitor) (Text.currentState +:+ state result);
      Log (name monitor) (Text.previousState +:+ state result);
      Log (name monitor) Text.stateUnchanged;
      Log (name monitor) Text.checkComplete]).
Proof.
  intros Hp Hl Hs Hd. destruct tk as [p n t], cfg as [tp dbg]. simpl in *. subst p.
  assert (deleteStreak db (name monitor) = db) as Hdel.
  { unfold deleteStreak. unfold selectStreak in Hs. rewrite delete_id by done.
    by destruct db. }
  unfold selectStreak in Hs.
  unfold_run. run_norm. rewrite Hs. run_norm. rewrite Hl. run_norm.
  rewrite bool_decide_eq_false_2 by auto. run_norm. rewrite Hd. run_norm.
  fold (deleteStreak db (name monitor)). by rewrite Hdel.
Qed.

Lemma unchanged_state_is_silent_witness :
  checks (dbAfter (runCheck alerts (resultTick "unavailable" 60 ntfyUp) bookeroMonitor
                     seenUnavailable))
  = [mkCheckRow 1 "bookero" "unavailable" 0 1;
     mkCheckRow 2 "bookero" "unavailable" 60 0]
  ∧ outOf (runCheck alerts (resultTick "unavailable" 60 ntfyUp) bookeroMonitor
             seenUnavailable)
    = [Log "bookero" Text.startingCheck;
       Log "bookero" (Text.currentState +:+ "unavailable");
       Log "bookero" (Text.previousState +:+ "unavailable");
       Log "bookero" Text.stateUnchanged;
       Log "bookero" Text.checkComplete].
Proof.
  rewrite (unchanged_state_is_silent alerts (resultTick "unavailable" 60 ntfyUp)
             bookeroMonitor seenUnavailable (mkCheckResult "unavailable" EmptyString));
    [split; reflexivity | reflexivity | vm_compute; reflexivity
     | vm_compute; reflexivity | reflexivity].
Defined.

(** X10.  A call reaches the recovery dispatch at most once, and only when
    the probe returned a result and the streak row it found was notified: no
    recovery is announced for an outage that never raised its alert. *)
Theorem recovery_only_after_alert (cfg : Config) (tk : Tick) (monitor : Monitor)
    (db : Database) :
  countEvents Recovery (outOf (runCheck cfg tk monitor db)) ≠ 0%nat →
  countEvents Recovery (outOf (runCheck cfg tk monitor db)) = 1%nat
  ∧ failed tk = false
  ∧ ∃ s, selectStreak db (name monitor) = Some s
         ∧ truthy (streak_notified s) = true.
Proof.
  destruct tk as [p n t], cfg as [tp dbg]. unfold failed, selectStreak.
  exec_run.
  all: cbn [probe].
  all: try done.
  all: intros _; repeat split; eexists; split; [reflexivity|done].
Qed.

Lemma recovery_only_after_alert_witness :
  countEvents Recovery
    (outOf (runCheck alerts (resultTick "unavailable" 1000 ntfyUp) bookeroMonitor
              notifiedStreak)) = 1%nat
  ∧ failed (resultTick "unavailable" 1000 ntfyUp) = false
  ∧ ∃ s, selectStreak notifiedStreak "bookero" = Some s
         ∧ truthy (streak_notified s) = true.
Proof.
  apply (recovery_only_after_alert alerts (resultTick "unavailable" 1000 ntfyUp)
           bookeroMonitor notifiedStreak).
  vm_compute. lia.
Defined.

(** ** An outage from its first failure to the recovery *)

Section Outage.

Variables (cfg : Config) (monitor : Monitor).

Lemma runTicks_app ticks1 ticks2 db :
  runTicks cfg monitor (ticks1 ++ ticks2) db
  = ((runTicks cfg monitor ticks2 (runTicks cfg monitor ticks1 db).1).1,
     (runTicks cfg monitor ticks1 db).2
       ++ (runTicks cfg monitor ticks2 (runTicks cfg monitor ticks1 db).1).2).
Proof.
  revert db. induction ticks1 as [|tk rest IH]; intros db; simpl.
  - by destruct (runTicks cfg monitor ticks2 db).
  - rewrite IH. by destruct (runTicks cfg monitor rest _).
Qed.

(** A failing tick never reaches the recovery dispatch. *)
Lemma failing_tick_no_recovery tk db :
  failed tk = true →
  countEvents Recovery (outOf (runCheck cfg tk monitor db)) = 0%nat.
Proof.
  unfold failed. destruct tk as [p n t], cfg as [tp dbg]. simpl.
  destruct p; [done|]. intros _.
  exec_run.
  all: done.
Qed.

Lemma failing_ticks_no_recovery ticks db :
  forallb failed ticks = true →
  map (countEvents Recovery) (runTicks cfg monitor ticks db).2
  = map (λ _, 0%nat) ticks.
Proof.
  revert db. induction ticks as [|tk rest IH]; intros db Hf; [done|].
  simpl in Hf. apply andb_prop in Hf as [Hf Hrest]. simpl.
  specialize (IH (dbAfter (runCheck cfg tk monitor db)) Hrest).
  destruct (runTicks cfg monitor rest _) as [db' outs]. simpl in *.
  by rewrite IH, failing_tick_no_recovery.
Qed.

(** A tick whose probe returns, no dispatch raising: the streak row is
    gone, the recovery dispatch is reached exactly when the row was
    notified, the error-threshold dispatch is not. *)
Lemma returning_tick tk db :
  failed tk = false →
  noDispatchRaised (outOf (runCheck cfg tk monitor db)) = true →
  selectStreak (dbAfter (runCheck cfg tk monitor db)) (name monitor) = None
  ∧ countEvents ErrorThreshold (outOf (runCheck cfg tk monitor db)) = 0%nat
  ∧ countEvents Recovery (outOf (runCheck cfg tk monitor db))
    = match selectStreak db (name monitor) with
      | Some s => if truthy (streak_notified s) then 1%nat else 0%nat
      | None => 0%nat
      end.
Proof.
  unfold failed, selectStreak. destruct tk as [p n t], cfg as [tp dbg]. simpl.
  destruct p as [result|]; [|done]. intros _.
  exec_run.
  all: cbn [error_streak saveState deleteStreak insertStreak].
  all: rewrite ?lookup_delete_eq.
  all: done.
Qed.

(** Failing ticks from a database without streak row, no dispatch raising. *)
Lemma fresh_streak_ticks db tk0 rest :
  selectStreak db (name monitor) = None →
  forallb failed (tk0 :: rest) = true →
  forallb noDispatchRaised (runTicks cfg monitor (tk0 :: rest) db).2 = true →
  map (countEvents ErrorThreshold) (runTicks cfg monitor (tk0 :: rest) db).2
    = 0%nat :: thresholdMarks (now tk0) rest
  ∧ selectStreak (runTicks cfg monitor (tk0 :: rest) db).1 (name monitor)
    = Some (mkStreakRow (now tk0)
              (if existsb (λ tk, 900 <=? now tk - now tk0) rest then 1 else 0)).
Proof.
  intros Hs Hf Hn.
  simpl in Hf. apply andb_prop in Hf as [Hf Hrest].
  unfold failed in Hf. destruct (probe tk0) as [|e] eqn:Hp; [done|].
  pose proof (failing_tick cfg tk0 monitor db e Hp) as Hstep.
  rewrite Hs in Hstep. destruct Hstep as [Hs' Hc].
  pose proof (open_streak_ticks cfg monitor rest
                (dbAfter (runCheck cfg tk0 monitor db)) _ Hs' eq_refl Hrest) as Hnext.
  simpl in Hn |- *.
  destruct (runTicks cfg monitor rest _) as [db' outs]. simpl in *.
  apply andb_prop in Hn as [_ Hn].
  destruct (Hnext Hn) as [-> ->]. rewrite Hc. split; [done|].
  by destruct (existsb _ rest).
Qed.

(** X11.  A whole outage: a monitor without streak row fails at [t0] and at
    every tick after it, then its probe returns a result, and no dispatch
    raises.  The error-threshold dispatch is reached once, at the first
    failing tick 15 minutes or more after [t0], if there is one, and in that
    case only the returning tick reaches the recovery dispatch, once; when
    the outage ends before the threshold neither is reached.  The streak row
    is gone at the end. *)
Theorem alert_then_recovery (db : Database) (tk0 : Tick) (rest : list Tick)
    (back : Tick) :
  selectStreak db (name monitor) = None →
  forallb failed (tk0 :: rest) = true →
  failed back = false →
  forallb noDispatchRaised
    (runTicks cfg monitor ((tk0 :: rest) ++ [back]) db).2 = true →
  map (countEvents ErrorThreshold)
    (runTicks cfg monitor ((tk0 :: rest) ++ [back]) db).2
    = (0%nat :: thresholdMarks (now tk0) rest) ++ [0%nat]
  ∧ map (countEvents Recovery)
      (runTicks cfg monitor ((tk0 :: rest) ++ [back]) db).2
    = map (λ _, 0%nat) (tk0 :: rest)
      ++ [if existsb (λ tk, 900 <=? now tk - now tk0) rest then 1%nat else 0%nat]
  ∧ selectStreak (runTicks cfg monitor ((tk0 :: rest) ++ [back]) db).1
      (name monitor) = None.
Proof.
  intros Hs Hf Hb Hn.
  rewrite runTicks_app in Hn |- *. cbn [fst snd] in Hn |- *.
  rewrite forallb_app in Hn. apply andb_prop in Hn as [Hn1 Hn2].
  destruct (fresh_streak_ticks db tk0 rest Hs Hf Hn1) as [Hc1 Hs1].
  pose proof (failing_ticks_no_recovery (tk0 :: rest) db Hf) as Hr1.
  set (db1 := (runTicks cfg monitor (tk0 :: rest) db).1) in *.
  change (runTicks cfg monitor [back] db1)
    with (dbAfter (runCheck cfg back monitor db1),
          [outOf (runCheck cfg back monitor db1)]) in Hn2 |- *.
  cbn [fst snd] in Hn2 |- *. simpl in Hn2. rewrite andb_true_r in Hn2.
  destruct (returning_tick back db1 Hb Hn2) as (Hnone & He & Hr).
  rewrite !map_app, Hc1, Hr1. simpl. rewrite He, Hr, Hs1. simpl.
  repeat split; try done.
  by destruct (existsb _ rest).
Qed.

End Outage.

Lemma alert_then_recovery_witness :
  map (countEvents ErrorThreshold)
    (runTicks alerts bookeroMonitor
       ((failingTick 0 ntfyUp :: outage) ++ [resultTick "unavailable" 960 ntfyUp])
       emptyDb).2
  = [0; 0; 1; 0]%nat
  ∧ map (countEvents Recovery)
      (runTicks alerts bookeroMonitor
         ((failingTick 0 ntfyUp :: outage) ++ [resultTick "unavailable" 960 ntfyUp])
         emptyDb).2
    = [0; 0; 0; 1]%nat
  ∧ selectStreak
      (runTicks alerts bookeroMonitor
         ((failingTick 0 ntfyUp :: outage) ++ [resultTick "unavailable" 960 ntfyUp])
         emptyDb).1 "bookero" = None.
Proof.
  apply (alert_then_recovery alerts bookeroMonitor emptyDb (failingTick 0 ntfyUp)
           outage (resultTick "unavailable" 960 ntfyUp));
    vm_compute; reflexivity.
Defined.

(** ** Startup *)

Lemma forallb_false_elem {A} (f : A → bool) (l : list A) :
  forallb f l = false → ∃ x, x ∈ l ∧ f x = false.
Proof.
  induction l as [|a l IH]; [done|]. simpl.
  destruct (f a) eqn:Ha; simpl.
  - intros (x & Hin & Hx)%IH. exists x. split; [by right|done].
  - intros _. exists a. split; [left|done].
Qed.

(** A pass that ends with an exception has a call that is not contained. *)
Lemma abrupt_pass_not_contained cfg pass db e :
  completionOf (runAllChecks cfg pass db) = Abrupt e →
  ∃ mt, mt ∈ pass ∧ contained cfg mt = false.
Proof.
  intros Ha. destruct (forallb (contained cfg) pass) eqn:Hall.
  - destruct (runAllChecks_starts_all cfg pass db) as [Hn _]; [|congruence].
    intros monitor tk db' Hin. apply runCheck_contained.
    rewrite forallb_forall in Hall. apply (Hall (monitor, tk)).
    by apply list_elem_of_In.
  - by apply forallb_false_elem.
Qed.

(** No monitor is enabled exactly when every variable says [false]. *)
Lemma monitors_nil env registry :
  monitors env registry = [] ↔ ∀ m, m ∈ registry → env !! envKey m = Some "false".
Proof.
  unfold monitors. split.
  - intros Hnil m Hm.
    destruct (decide (env !! envKey m = Some "false")) as [|Hne]; [done|].
    by apply (filter_nil_not_elem_of _ _ m Hnil) in Hne.
  - intros Hall. apply elem_of_nil_inv. intros m [Hne Hm]%list_elem_of_filter.
    by apply Hne, Hall.
Qed.

(** X12.  [main] leaves with code 1, without opening a pass, exactly when
    every monitor of the registry is switched off; otherwise it prints the
    names of the enabled monitors and runs one pass over them at once, and
    creates the job that repeats the pass only if that first pass ends
    normally: when the first pass throws (some call of it is not contained),
    the promise of [main] is rejected and nothing is ever scheduled. *)
Theorem main_startup (cfg : Config) (env : gmap string string)
    (registry : list Monitor) (world : Monitor → Tick) (next : string)
    (db : Database) :
  match main cfg env registry world next db with
  | Exited code console =>
      code = 1 ∧ console = [StartupText.noMonitors]
      ∧ ∀ m, m ∈ registry → env !! envKey m = Some "false"
  | Scheduled console db' out =>
      (∃ m, m ∈ registry ∧ env !! envKey m ≠ Some "false")
      ∧ runAllChecks cfg ((λ m, (m, world m)) <$> monitors env registry) db
        = (Normal tt, db', out)
      ∧ console = [StartupText.activeMonitors
                     +:+ join ", " (name <$> monitors env registry);
                   StartupText.scheduled +:+ next]
  | PassRejected e console db' out =>
      runAllChecks cfg ((λ m, (m, world m)) <$> monitors env registry) db
        = (Abrupt e, db', out)
      ∧ (∃ m, m ∈ monitors env registry ∧ contained cfg (m, world m) = false)
      ∧ console = [StartupText.activeMonitors
                     +:+ join ", " (name <$> monitors env registry)]
  end.
Proof.
  unfold main. case_bool_decide as Hlen.
  - apply nil_length_inv in Hlen.
    pose proof (proj1 (monitors_nil env registry) Hlen). done.
  - destruct (runAllChecks cfg _ db) as [[c db'] out] eqn:Hrun.
    destruct c as [[]|e].
    + split; [|done].
      destruct (monitors env registry) as [|m ms] eqn:Hms; [done|].
      assert (m ∈ monitors env registry) as Hin by (rewrite Hms; left).
      apply list_elem_of_filter in Hin as [Hne Hin]. by exists m.
    + split; [done|]. split; [|done].
      destruct (abrupt_pass_not_contained cfg
                  ((λ m, (m, world m)) <$> monitors env registry) db e)
        as (mt & Hin & Hc).
      { by rewrite Hrun. }
      apply list_elem_of_fmap in Hin as (m & -> & Hin). by exists m.
Qed.

(** ** The keys of the registry *)





(** ** The check of the sportivo monitor *)

Lemma startsWith_spec p s : startsWith p s = true ↔ ∃ post, s = p +:+ post.
Proof.
  revert s. induction p as [|a p IH]; intros s; simpl.
  - split; [by exists s|done].
  - destruct s as [|b s]; [split; [done|by intros [? ?]]|].
    rewrite andb_true_iff, IH. split.
    + intros [->%Ascii.eqb_eq [post ->]]. by exists post.
    + intros [post [= -> ->]]. split; [apply Ascii.eqb_refl|by exists post].
Qed.

Lemma includes_app pre needle post :
  includes needle (pre +:+ needle +:+ post) = true.
Proof.
  induction pre as [|c pre IH]; simpl.
  - assert (startsWith needle (needle +:+ post) = true) as Hs
      by (apply startsWith_spec; by exists post).
    destruct (needle +:+ post); simpl in *; rewrite Hs; done.
  - rewrite IH. apply orb_true_r.
Qed.

Lemma includes_spec needle hay :
  includes needle hay = true ↔ ∃ pre post, hay = pre +:+ needle +:+ post.
Proof.
  split; [|intros (pre & post & ->); apply includes_app].
  induction hay as [|c hay IH]; simpl.
  - rewrite orb_false_r. intros [post ->]%startsWith_spec. by exists EmptyString, post.
  - intros [[post ->]%startsWith_spec|(pre & post & ->)%IH]%orb_true_iff.
    + by exists EmptyString, post.
    + by exists (String c pre), post.
Qed.

(** X14.  The check of sportivo returns a result only for a response with
    [response.ok] whose text could be read: [closed] exactly when the text
    contains [CLOSED_TEXT] somewhere, [open] otherwise; a response without
    [ok] fails with [HTTP] and the status line, without its text being read;
    a rejected request or an unreadable text fails with its own error. *)
Theorem sportivo_check_outcome (page : PageOutcome) :
  match sportivoCheck page with
  | Returned result =>
      ∃ statusLine body,
        page = PageResponse true statusLine (Normal body)
        ∧ (((∃ pre post, body = pre +:+ CLOSED_TEXT +:+ post)
            ∧ result = mkCheckResult "closed" "Rejestracja zamknięta")
           ∨ ((¬ ∃ pre post, body = pre +:+ CLOSED_TEXT +:+ post)
              ∧ result = mkCheckResult "open" "Rejestracja otwarta"))
  | Failed e =>
      page = PageRejected e
      ∨ (∃ statusLine text,
           page = PageResponse false statusLine text ∧ e = "HTTP " +:+ statusLine)
      ∨ (∃ statusLine, page = PageResponse true statusLine (Abrupt e))
  end.
Proof.
  destruct page as [[|] statusLine [body|e]|e]; simpl; eauto 6.
  exists statusLine, body. split; [done|].
  destruct (includes CLOSED_TEXT body) eqn:Hin.
  - left. split; [by apply includes_spec|done].
  - right. split; [|done]. intros H%includes_spec. congruence.
Qed.

(** X15.  From the page to the phone: when the last recorded state of
    sportivo is [closed], there is no streak row, the page answers with a
    text that no longer contains [CLOSED_TEXT] and ntfy.sh accepts the POST,
    the call makes exactly one POST, to [NTFY_TOPIC], of the notification
    that registration has opened (priority 5, tag [tada], click through to
    the page), and appends the record [open] with [notified = 1]. *)
Theorem sportivo_page_opens (cfg : Config) (answers : nat → FetchOutcome) (t : Z)
    (db : Database) (topic statusLine body : string) :
  NTFY_TOPIC cfg = Some topic →
  truthyStr (Some topic) = true →
  getLastState db "sportivo" = Some "closed" →
  selectStreak db "sportivo" = None →
  includes CLOSED_TEXT body = false →
  delivered (answers 0%nat) = true →
  runCheck cfg
    (mkTick (sportivoCheck (PageResponse true statusLine (Normal body))) answers t)
    sportivoMonitor db
  = (Normal tt,
     saveState t db "sportivo" "open" true,
     [Log "sportivo" Text.startingCheck;
      Log "sportivo" (Text.currentState +:+ "open");
      Log "sportivo" (Text.previousState +:+ "closed");
      Log "sportivo" Text.stateChanged;
      Event StateChanged "sportivo";
      Post topic
        (mkPayload
           (mkNotification "Rejestracja OTWARTA!"
              "Rejestracja w S-Sportivo została właśnie otwarta! Wejdź na stronę i się zapisz."
              5 ["tada"])
           "https://s-sportivo.pl/czlonkostwo/")
        (answers 0%nat);
      Log "sportivo" Text.checkComplete]).
Proof.
  intros Htp Ht Hl Hs Hbody Hd. destruct cfg as [tp dbg]. simpl in Htp. subst tp.
  assert (deleteStreak db "sportivo" = db) as Hdel.
  { unfold deleteStreak. unfold selectStreak in Hs. rewrite delete_id by done.
    by destruct db. }
  unfold selectStreak in Hs. simpl in Ht.
  unfold sportivoCheck. rewrite Hbody. cbn [negb].
  unfold_run. run_norm. cbn [name sportivoMonitor state url notification].
  rewrite Hs. run_norm. rewrite Hl. run_norm.
  rewrite bool_decide_eq_true_2 by done. run_norm.
  cbn [truthyStr]. rewrite Ht. run_norm.
  destruct (answers 0%nat) as [[|] sl|e]; try done. run_norm.
  fold (deleteStreak db "sportivo"). rewrite Hdel. reflexivity.
Qed.

Lemma sportivo_page_opens_witness :
  includes CLOSED_TEXT openPage = false
  ∧ checks
      (dbAfter
         (runCheck alerts
            (mkTick (sportivoCheck (PageResponse true "200 OK" (Normal openPage)))
               ntfyUp 60)
            sportivoMonitor seenClosed))
    = [mkCheckRow 1 "sportivo" "closed" 0 1; mkCheckRow 2 "sportivo" "open" 60 1].
Proof.
  split; [vm_compute; reflexivity|].
  rewrite (sportivo_page_opens alerts ntfyUp 60 seenClosed "alerts" "200 OK" openPage);
    [reflexivity | reflexivity | reflexivity | vm_compute; reflexivity
     | vm_compute; reflexivity | vm_compute; reflexivity | reflexivity].
Defined.

(** X20.  The notification of sportivo reads the state the way its check
    writes it: for a result of the check, priority 5, the tag [tada] and the
    title of open registration go with the state [open], priority 4, the tag
    [warning] and the title of closed registration with [closed]; a first
    observation is announced with the detail of the result in lower case. *)
Theorem sportivo_notification_follows_check (page : PageOutcome)
    (result : CheckResult) (previous : option string) :
  sportivoCheck page = Returned result →
  (state result = "open"
   ∧ notification sportivoMonitor result previous
     = mkNotification "Rejestracja OTWARTA!"
         (match previous with
          | None => "Pierwsze sprawdzenie. Aktualny stan: rejestracja otwarta."
          | Some _ =>
              "Rejestracja w S-Sportivo została właśnie otwarta! Wejdź na stronę i się zapisz."
          end)
         5 ["tada"])
  ∨ (state result = "closed"
     ∧ notification sportivoMonitor result previous
       = mkNotification "Rejestracja zamknięta"
           (match previous with
            | None => "Pierwsze sprawdzenie. Aktualny stan: rejestracja zamknięta."
            | Some _ => "Rejestracja w S-Sportivo została zamknięta."
            end)
           4 ["warning"]).
Proof.
  destruct page as [[|] statusLine [body|e]|e]; simpl; try done.
  destruct (includes CLOSED_TEXT body); intros [= <-];
    [right|left]; (split; [done|]); by destruct previous.
Qed.

Lemma sportivo_notification_follows_check_witness :
  sportivoCheck (PageResponse true "200 OK" (Normal openPage))
  = Returned (mkCheckResult "open" "Rejestracja otwarta")
  ∧ notification sportivoMonitor (mkCheckResult "open" "Rejestracja otwarta") None
    = mkNotification "Rejestracja OTWARTA!"
        "Pierwsze sprawdzenie. Aktualny stan: rejestracja otwarta." 5 ["tada"].
Proof.
  split; [vm_compute; reflexivity|].
  destruct (sportivo_notification_follows_check
              (PageResponse true "200 OK" (Normal openPage))
              (mkCheckResult "open" "Rejestracja otwarta") None)
    as [[_ H]|[H _]].
  - vm_compute; reflexivity.
  - exact H.
  - discriminate H.
Defined.

(** ** The check of the bookero monitor *)

(** The slots of a month, day by day. *)
Lemma elem_of_slotsOf data s :
  s ∈ slotsOf data ↔
  valid_month data = true
  ∧ ∃ ds day, days data = Some ds ∧ day ∈ ds ∧ bookable day = true
              ∧ s = mkAvailableSlot (day_date day) (default EmptyString (day_day day))
                      (hourOf <$> default [] (day_hours day)).
Proof.
  unfold slotsOf. destruct (valid_month data); simpl.
  - destruct (days data) as [ds|].
    + rewrite list_elem_of_omap. split.
      * intros (day & Hin & Hs). split; [done|]. exists ds, day.
        destruct (bookable day); by simplify_eq.
      * intros (_ & ds' & day & [= <-] & Hin & Hb & ->). exists day.
        by rewrite Hb.
    + split; [by intros ?%elem_of_nil|]. by intros (_ & ? & ? & ? & _).
  - split; [by intros ?%elem_of_nil|]. by intros [? _].
Qed.

(** X16.  The check of bookero fails exactly when a month cannot be
    fetched, the first month first: with the error of month 0, or, when
    month 0 was fetched, with the error of month 1, whatever slots month 0
    has; a response without [ok] gives the error [HTTP] and its status line.
    When both months are fetched the state is [available] exactly when a
    valid month has a day with [valid_day > 0] and at least one hour, and
    [unavailable] otherwise. *)
Theorem bookero_check_outcome (month0 month1 : MonthOutcome) :
  match bookeroCheck month0 month1 with
  | Failed e =>
      fetchMonth month0 = Abrupt e
      ∨ (∃ data0, fetchMonth month0 = Normal data0 ∧ fetchMonth month1 = Abrupt e)
  | Returned result =>
      ∃ data0 data1,
        fetchMonth month0 = Normal data0 ∧ fetchMonth month1 = Normal data1
        ∧ (state result = "available" ∨ state result = "unavailable")
        ∧ (state result = "available" ↔
           ∃ data ds day h hs,
             (data = data0 ∨ data = data1)
             ∧ valid_month data = true ∧ days data = Some ds ∧ day ∈ ds
             ∧ 0 < valid_day day ∧ day_hours day = Some (h :: hs))
  end
  ∧ (∀ statusLine json,
       fetchMonth (MonthResponse false statusLine json) = Abrupt ("HTTP " +:+ statusLine)).
Proof.
  split; [|done].
  unfold bookeroCheck.
  destruct (fetchMonth month0) as [data0|e0]; [|by left].
  destruct (fetchMonth month1) as [data1|e1]; [|right; by exists data0].
  exists data0, data1. split; [done|]. split; [done|]. cbn [state].
  split; [case_bool_decide; auto|].
  assert (∀ s, s ∈ slotsOf data0 ++ slotsOf data1 ↔
            ∃ data ds day,
              (data = data0 ∨ data = data1)
              ∧ valid_month data = true ∧ days data = Some ds ∧ day ∈ ds
              ∧ bookable day = true
              ∧ s = mkAvailableSlot (day_date day) (default EmptyString (day_day day))
                      (hourOf <$> default [] (day_hours day))) as Hel.
  { intros s. rewrite elem_of_app, !elem_of_slotsOf. split.
    - intros [(Hv & ds & day & Hds & Hin & Hbk & Hs)|(Hv & ds & day & Hds & Hin & Hbk & Hs)].
      + exists data0, ds, day. auto 10.
      + exists data1, ds, day. auto 10.
    - intros (data & ds & day & [->| ->] & Hv & Hds & Hin & Hbk & Hs);
        [left|right]; (split; [done|]); by exists ds, day. }
  assert (∀ day, bookable day = true ↔
                 0 < valid_day day ∧ ∃ h hs, day_hours day = Some (h :: hs)) as Hb.
  { intros day. unfold bookable. rewrite andb_true_iff, Z.ltb_lt.
    destruct (day_hours day) as [[|h hs]|].
    - split; [by intros [_ ?]|]. by intros (_ & h & hs & ?).
    - split; [intros [? _]; split; [done|]; by exists h, hs|]. by intros [? _].
    - split; [by intros [_ ?]|]. by intros (_ & h & hs & ?). }
  case_bool_decide as Hlen; split; try done.
  - intros _. destruct (slotsOf data0 ++ slotsOf data1) as [|s l];
      [simpl in Hlen; lia|].
    destruct (proj1 (Hel s)) as (data & ds & day & Hd & Hv & Hds & Hday & Hbk & _);
      [left|].
    apply Hb in Hbk as (Hpos & h & hs & Hh). by exists data, ds, day, h, hs.
  - intros (data & ds & day & h & hs & Hd & Hv & Hds & Hday & Hpos & Hh).
    exfalso. apply Hlen.
    assert (mkAvailableSlot (day_date day) (default EmptyString (day_day day))
              (hourOf <$> default [] (day_hours day))
            ∈ slotsOf data0 ++ slotsOf data1) as Hin.
    { apply Hel. exists data, ds, day. repeat split; try done.
      apply Hb. split; [done|]. by exists h, hs. }
    destruct (slotsOf data0 ++ slotsOf data1); [by apply elem_of_nil in Hin|].
    simpl. lia.
Qed.

(** X17.  The slots that [check] collects from one month: none for a month
    that is not valid or has no [days]; otherwise one per bookable day, in
    the order of the API, each with the date of its day, an empty day name
    when the API gives none, and at least one hour. *)
Theorem bookero_slots_of_month (data : ApiMonth) :
  (valid_month data = false ∨ days data = None → slotsOf data = [])
  ∧ (∀ ds, valid_month data = true → days data = Some ds →
       slot_date <$> slotsOf data = day_date <$> filter (λ d, bookable d = true) ds
       ∧ slot_day <$> slotsOf data
         = (λ d, default EmptyString (day_day d)) <$> filter (λ d, bookable d = true) ds)
  ∧ (∀ s, s ∈ slotsOf data → slot_hours s ≠ []).
Proof.
  split; [|split].
  - unfold slotsOf. intros [->| ->]; [done|]. by destruct (valid_month data).
  - intros ds Hv Hds. unfold slotsOf. rewrite Hv, Hds. cbn [negb]. clear Hds.
    induction ds as [|d ds IH]; [done|].
    destruct IH as [IH1 IH2].
    rewrite filter_cons. cbn [omap list_omap]. destruct (bookable d) eqn:Hb.
    + rewrite decide_True by done. rewrite !fmap_cons. cbn [slot_date slot_day].
      by rewrite IH1, IH2.
    + rewrite decide_False by done. done.
  - intros s (_ & ds & day & _ & _ & Hb & ->)%elem_of_slotsOf. simpl.
    unfold bookable in Hb. apply andb_prop in Hb as [_ Hb].
    by destruct (day_hours day) as [[|h hs]|].
Qed.

Lemma string_app_assoc (a b c : string) : (a +:+ b) +:+ c = a +:+ b +:+ c.
Proof.
  induction a as [|x a IH]; [done|].
  change (String x ((a +:+ b) +:+ c) = String x (a +:+ b +:+ c)). by rewrite IH.
Qed.

Lemma join_app sep (l1 l2 : list string) :
  l1 ≠ [] → l2 ≠ [] →
  join sep (l1 ++ l2) = join sep l1 +:+ sep +:+ join sep l2.
Proof.
  intros H1 H2. unfold join.
  induction l1 as [|a l1 IH]; [done|].
  destruct l1 as [|b l1].
  - destruct l2 as [|c l2]; [done|]. reflexivity.
  - change (String.concat sep ((a :: b :: l1) ++ l2))
      with (a +:+ sep +:+ String.concat sep ((b :: l1) ++ l2)).
    rewrite IH by done.
    change (String.concat sep (a :: b :: l1))
      with (a +:+ sep +:+ String.concat sep (b :: l1)).
    by rewrite !string_app_assoc.
Qed.

(** X18.  [formatSlots] writes nothing for no slot, and one line per slot
    with a line feed between lines and none at the end: the text for two
    lists of slots, neither empty, is the text of the first, a line feed and
    the text of the second; each line is the date, the day name in
    parentheses, a colon and the hours separated by a comma and a space. *)
Theorem formatSlots_lines (slots1 slots2 : list AvailableSlot) :
  formatSlots [] = EmptyString
  ∧ (∀ s, formatSlots [s]
          = slot_date s +:+ " (" +:+ slot_day s +:+ "): " +:+ join ", " (slot_hours s))
  ∧ (slots1 ≠ [] → slots2 ≠ [] →
     formatSlots (slots1 ++ slots2)
     = formatSlots slots1 +:+ newline +:+ formatSlots slots2).
Proof.
  split; [done|]. split; [done|].
  intros H1 H2. unfold formatSlots. rewrite fmap_app.
  apply join_app; by destruct slots1, slots2.
Qed.

(** X19.  The notification of bookero reads the state the way its check
    writes it: for a result of the check, priority 5, the tag [tada] and the
    title of free slots go with the state [available], and then the message
    carries the list of slots of the result; priority 4, the tag [warning]
    and the title of no slots go with [unavailable], and then the message
    carries no list.  A first observation is announced as such. *)
Theorem bookero_notification_follows_check (month0 month1 : MonthOutcome)
    (result : CheckResult) (previous : option string) :
  bookeroCheck month0 month1 = Returned result →
  (state result = "available"
   ∧ notification bookeroMonitor result previous
     = mkNotification "Wolne terminy USG!"
         ((match previous with
           | None => "Pierwsze sprawdzenie. "
           | Some _ => "Pojawiły się wolne terminy USG!" +:+ newline
           end) +:+ detail result)
         5 ["tada"])
  ∨ (state result = "unavailable"
     ∧ notification bookeroMonitor result previous
       = mkNotification "Terminy USG zamknięte"
           (match previous with
            | None => "Pierwsze sprawdzenie. Brak wolnych terminów."
            | Some _ => "Wszystkie terminy USG są obecnie zamknięte."
            end)
           4 ["warning"]).
Proof.
  unfold bookeroCheck.
  destruct (fetchMonth month0) as [data0|]; [|done].
  destruct (fetchMonth month1) as [data1|]; [|done].
  intros [= <-]. cbn [state detail].
  case_bool_decide; [left|right]; (split; [done|]).
  - destruct previous; cbn -[String.append formatSlots];
      rewrite ?string_app_assoc; reflexivity.
  - by destruct previous.
Qed.

Lemma bookero_notification_follows_check_witness :
  bookeroCheck monthWithSlot monthWithoutDays
  = Returned
      (mkCheckResult "available"
         ("Dostępne terminy:" +:+ newline +:+ "2025-01-10 (pt): 10:00, 11:30"))
  ∧ notification bookeroMonitor
      (mkCheckResult "available"
         ("Dostępne terminy:" +:+ newline +:+ "2025-01-10 (pt): 10:00, 11:30"))
      (Some "unavailable")
    = mkNotification "Wolne terminy USG!"
        ("Pojawiły się wolne terminy USG!" +:+ newline +:+ "Dostępne terminy:"
           +:+ newline +:+ "2025-01-10 (pt): 10:00, 11:30")
        5 ["tada"].
Proof.
  split; [vm_compute; reflexivity|].
  destruct (bookero_notification_follows_check monthWithSlot monthWithoutDays
              (mkCheckResult "available"
                 ("Dostępne terminy:" +:+ newline +:+ "2025-01-10 (pt): 10:00, 11:30"))
              (Some "unavailable"))
    as [[_ H]|[H _]].
  - vm_compute; reflexivity.
  - rewrite H. vm_compute; reflexivity.
  - discriminate H.
Defined.

(** ** The [notified] column *)

(** The row a call appends carries [notified] 0 exactly when its state is
    the last state of the monitor. *)
Lemma runCheck_appends_marked cfg tk monitor db :
  checks (dbAfter (runCheck cfg tk monitor db)) = checks db
  ∨ ∃ result,
      probe tk = Returned result
      ∧ checks (dbAfter (runCheck cfg tk monitor db)) =
          checks db ++
            [mkCheckRow (nextId (checks db)) (name monitor) (state result) (now tk)
               (if bool_decide (getLastState db (name monitor) = Some (state result))
                then 0 else 1)].
Proof.
  destruct tk as [p n t], cfg as [tp dbg].
  exec_run.
  all: try (by left).
  all: right; eexists; split; [reflexivity|].
  all: repeat case_bool_decide; simplify_eq; try done.
Qed.

Lemma runCheck_ids_ascending cfg tk monitor db :
  idsAscending (checks db) = true →
  idsAscending (checks (dbAfter (runCheck cfg tk monitor db))) = true.
Proof.
  intros Ht.
  destruct (runCheck_appends cfg tk monitor db) as [->|(result & b & _ & ->)];
    [done|].
  apply idsAscending_snoc; [done|]. intros r' Hr'. simpl. by apply nextId_gt.
Qed.

Lemma changesMarkedFrom_snoc previous rows r :
  changesMarkedFrom previous (rows ++ [r])
  = changesMarkedFrom previous rows
    && bool_decide
         (row_notified r
          = if bool_decide
                 (match last rows with
                  | Some r' => Some (row_state r')
                  | None => previous
                  end = Some (row_state r))
            then 0 else 1).
Proof.
  revert previous. induction rows as [|a rows IH]; intros previous; simpl.
  - by rewrite andb_true_r.
  - rewrite IH, andb_assoc. f_equal.
    rewrite last_cons. by destruct (last rows).
Qed.

Lemma runCheck_changes_marked cfg tk monitor db m :
  idsAscending (checks db) = true →
  changesMarked m (checks db) = true →
  changesMarked m (checks (dbAfter (runCheck cfg tk monitor db))) = true.
Proof.
  intros Hids Hm.
  destruct (runCheck_appends_marked cfg tk monitor db) as [->|(result & _ & ->)];
    [done|].
  unfold changesMarked, rowsOf in *. rewrite filter_app, filter_cons, filter_nil.
  simpl. destruct (decide (name monitor = m)) as [<-|]; [|by rewrite app_nil_r].
  rewrite changesMarkedFrom_snoc, Hm. simpl.
  unfold getLastState, rowsOf.
  rewrite maxById_ascending by by apply idsAscending_filter.
  apply bool_decide_eq_true_2.
  destruct (last (filter _ (checks db))) as [r'|]; simpl; [done|].
  by repeat case_bool_decide.
Qed.

(** X21.  The [notified] column marks the changes of state: when the ids
    grow along the table and, for a monitor, every row carries [notified] 1
    exactly if its state differs from the row before it (or it is the
    first), the same holds after any call of [runCheck], for any monitor,
    and after any pass. *)
Theorem notified_marks_changes (cfg : Config) (db : Database) (m : string) :
  idsAscending (checks db) = true →
  changesMarked m (checks db) = true →
  (∀ tk monitor,
     changesMarked m (checks (dbAfter (runCheck cfg tk monitor db))) = true)
  ∧ (∀ pass,
       changesMarked m (checks (dbAfter (runAllChecks cfg pass db))) = true).
Proof.
  intros Hids Hm. split; [intros; by apply runCheck_changes_marked|].
  intros pass. revert db Hids Hm.
  induction pass as [|[monitor tk] rest IH]; intros db Hids Hm; [done|].
  simpl.
  pose proof (runCheck_changes_marked cfg tk monitor db m Hids Hm) as Hm'.
  pose proof (runCheck_ids_ascending cfg tk monitor db Hids) as Hids'.
  destruct (runCheck cfg tk monitor db) as [[c d] o].
  unfold dbAfter in *. simpl in *.
  destruct c; [|done].
  specialize (IH d Hids' Hm'). by destruct (runAllChecks cfg rest d) as [[c' d'] o'].
Qed.

Lemma notified_marks_changes_witness :
  idsAscending (checks twoMonitors) = true
  ∧ changesMarked "bookero" (checks twoMonitors) = true
  ∧ changesMarked "bookero"
      (checks (dbAfter (runAllChecks alerts quietPass twoMonitors))) = true.
Proof.
  split; [reflexivity|]. split; [reflexivity|].
  apply (proj2 (notified_marks_changes alerts twoMonitors "bookero" eq_refl eq_refl)).
Defined.

(** * The engine and the scripts it replaced *)

Lemma sentBy_app out1 out2 : sentBy (out1 ++ out2) = sentBy out1 ++ sentBy out2.
Proof. unfold sentBy. by rewrite omap_app. Qed.

(** What a call of the engine does when no alert is due and no debug topic
    is set. *)
Lemma runCheck_quiet cfg tk monitor db :
  truthyStr (NTFY_DEBUG_TOPIC cfg) = false →
  quiet (now tk) (selectStreak db (name monitor)) = true →
  completionOf (runCheck cfg tk monitor db) = Normal tt
  ∧ match probe tk with
    | Failed _ =>
        checks (dbAfter (runCheck cfg tk monitor db)) = checks db
        ∧ sentBy (outOf (runCheck cfg tk monitor db)) = []
    | Returned result =>
        if bool_decide (getLastState db (name monitor) = Some (state result)) then
          checks (dbAfter (runCheck cfg tk monitor db))
          = checks (saveState (now tk) db (name monitor) (state result) false)
          ∧ sentBy (outOf (runCheck cfg tk monitor db)) = []
        else if truthyStr (NTFY_TOPIC cfg) then
          sentBy (outOf (runCheck cfg tk monitor db))
          = [Script.mkSent (default EmptyString (NTFY_TOPIC cfg))
               (notification monitor result (getLastState db (name monitor)))
               (Some (url monitor)) (ntfy tk 0%nat)]
          ∧ checks (dbAfter (runCheck cfg tk monitor db))
            = if delivered (ntfy tk 0%nat)
              then checks (saveState (now tk) db (name monitor) (state result) true)
              else checks db
        else
          sentBy (outOf (runCheck cfg tk monitor db)) = []
          ∧ checks (dbAfter (runCheck cfg tk monitor db))
            = checks (saveState (now tk) db (name monitor) (state result) true)
    end.
Proof.
  destruct tk as [p n t], cfg as [tp dbg]. unfold quiet, selectStreak. simpl.
  intros Hd Hq.
  exec_run.
  all: try discriminate.
  all: simpl in *; bool_hyps; simplify_eq; try done.
  all: match goal with H : ¬ _ ≠ _ |- _ => apply dec_stable in H end;
    by simplify_eq.
Qed.

(** The row a script has just saved is its last state. *)
Lemma script_nextId_gt t r : r ∈ t → Script.r_id r < Script.nextId t.
Proof.
  unfold Script.nextId. induction t as [|a t IH]; simpl.
  - by intros ?%elem_of_nil.
  - intros [->|Hr]%elem_of_cons; [lia|]. specialize (IH Hr). lia.
Qed.

Lemma script_maxById_snoc rows r :
  (∀ r', r' ∈ rows → Script.r_id r' < Script.r_id r) →
  Script.maxById (rows ++ [r]) = Some r.
Proof.
  induction rows as [|a rows IH]; intros Hlt; simpl; [done|].
  rewrite IH.
  - destruct (Z.ltb_spec (Script.r_id r) (Script.r_id a)) as [Hlt'|]; [|done].
    specialize (Hlt a ltac:(left)). lia.
  - intros r' Hr'. apply Hlt. by right.
Qed.

Lemma script_getLastState_saveState now t s n :
  Script.getLastState (Script.saveState now t s n) = Some s.
Proof.
  unfold Script.getLastState, Script.saveState.
  rewrite script_maxById_snoc; [done|].
  intros r' Hr'. simpl. by apply script_nextId_gt.
Qed.

Lemma getLastState_checks db db' m :
  checks db' = checks db → getLastState db' m = getLastState db m.
Proof. unfold getLastState. by intros ->. Qed.

(** The notifications of the sportivo monitor are those of the script. *)
Lemma sportivo_notification_script page result previous :
  sportivoCheck page = Returned result →
  notification sportivoMonitor result previous
  = SportivoScript.notification (state result) previous.
Proof.
  destruct page as [[|] statusLine [body|e]|e]; simpl; try done.
  destruct (includes CLOSED_TEXT body); intros [= <-]; by destruct previous.
Qed.

(** What the script takes for the state is what the check of the monitor
    returns. *)
Lemma sportivo_check_script env page :
  truthyStr (Script.FORCE_STATE env) = false →
  match SportivoScript.checkRegistration env page with
  | Normal st => ∃ result, sportivoCheck page = Returned result ∧ state result = st
  | Abrupt _ => ∃ e, sportivoCheck page = Failed e
  end.
Proof.
  intros Hf. unfold SportivoScript.checkRegistration. rewrite Hf.
  destruct page as [[|] statusLine [body|e]|e]; simpl; eauto.
Qed.

(** X22.  The engine with the sportivo monitor does what the sportivo script
    did.  With the same [NTFY_TOPIC], no debug topic, [TEST_MODE] and
    [FORCE_STATE] off, no alert due, and the same last state in both
    databases: on the same page and the same answers of ntfy.sh, the engine
    sends the same POSTs (topic, title, message, priority, tags, click) as
    the script, appends a record exactly when the script does, with the same
    state, time and [notified], and leaves the same last state. *)
Theorem engine_matches_sportivo_script (env : Script.Env) (cfg : Config)
    (page : PageOutcome) (answers : nat → FetchOutcome) (t : Z) (db : Database)
    (rows : list Script.Row) :
  NTFY_TOPIC cfg = Script.NTFY_TOPIC env →
  truthyStr (NTFY_DEBUG_TOPIC cfg) = false →
  Script.TEST_MODE env = false →
  truthyStr (Script.FORCE_STATE env) = false →
  quiet t (selectStreak db "sportivo") = true →
  getLastState db "sportivo" = Script.getLastState rows →
  completionOf (runCheck cfg (mkTick (sportivoCheck page) answers t) sportivoMonitor db)
  = Normal tt
  ∧ sentBy (outOf (runCheck cfg (mkTick (sportivoCheck page) answers t)
                     sportivoMonitor db))
    = (SportivoScript.runCheck env page answers t rows).2
  ∧ ((checks (dbAfter (runCheck cfg (mkTick (sportivoCheck page) answers t)
                         sportivoMonitor db)) = checks db
      ∧ (SportivoScript.runCheck env page answers t rows).1 = rows)
     ∨ ∃ st notified,
         checks (dbAfter (runCheck cfg (mkTick (sportivoCheck page) answers t)
                            sportivoMonitor db))
         = checks db ++ [mkCheckRow (nextId (checks db)) "sportivo" st t notified]
         ∧ (SportivoScript.runCheck env page answers t rows).1
           = rows ++ [Script.mkRow (Script.nextId rows) st t notified])
  ∧ getLastState (dbAfter (runCheck cfg (mkTick (sportivoCheck page) answers t)
                             sportivoMonitor db)) "sportivo"
    = Script.getLastState (SportivoScript.runCheck env page answers t rows).1.
Proof.
  intros Htopic Hdebug Htest Hforce Hquiet Hlast.
  pose proof (runCheck_quiet cfg (mkTick (sportivoCheck page) answers t)
                sportivoMonitor db Hdebug Hquiet) as [Hc Hrun].
  pose proof (sportivo_check_script env page Hforce) as Hcheck.
  pose proof (λ result, sportivo_notification_script page result
                          (Script.getLastState rows)) as Hn.
  split; [exact Hc|]. clear Hc.
  set (E := runCheck _ _ _ _) in *. clearbody E.
  unfold SportivoScript.runCheck, SportivoScript.notify.
  cbn [probe now ntfy] in Hrun.
  change (name sportivoMonitor) with "sportivo" in Hrun.
  change (url sportivoMonitor) with SportivoScript.TARGET_URL in Hrun.
  rewrite Hlast, Htopic in Hrun. rewrite Htest.
  destruct (SportivoScript.checkRegistration env page) as [st|e0].
  - destruct Hcheck as (result & Hp & <-). rewrite Hp in Hrun.
    specialize (Hn result Hp). rewrite Hn in Hrun. clear Hn Hp.
    assert (Hsaved : ∀ n,
               checks (dbAfter E) = checks (saveState t db "sportivo" (state result) n) →
               getLastState (dbAfter E) "sportivo" = Some (state result)).
    { intros n Hch. rewrite (getLastState_checks _ _ _ Hch).
      apply getLastState_saveState_eq. }
    assert (Hkept : checks (dbAfter E) = checks db →
                    getLastState (dbAfter E) "sportivo" = Script.getLastState rows).
    { intros Hch. by rewrite (getLastState_checks _ _ _ Hch). }
    destruct (Script.getLastState rows) as [previous|] eqn:Hg; rewrite ?Hg in Hrun.
    + destruct (decide (state result = previous)) as [<-|Hne].
      * rewrite bool_decide_eq_true_2 in Hrun by done.
        rewrite (bool_decide_eq_false_2 (state result ≠ state result)) by (by intros ?).
        destruct Hrun as [Hch Hs]. simpl. split; [done|].
        split; [right; eexists _, _; split; [exact Hch|reflexivity]|].
        rewrite script_getLastState_saveState. first [by apply (Hsaved true)|by apply (Hsaved false)].
      * rewrite bool_decide_eq_false_2 in Hrun by naive_solver.
        rewrite (bool_decide_eq_true_2 (state result ≠ previous)) by done.
        destruct (truthyStr (Script.NTFY_TOPIC env)); simpl.
        -- destruct Hrun as [Hs Hch]. unfold Script.postChecked. simpl.
           destruct (answers 0%nat) as [[|] sl|e]; simpl in *.
           ++ split; [done|]. split; [right; eexists _, _; split; [exact Hch|reflexivity]|].
              rewrite script_getLastState_saveState. first [by apply (Hsaved true)|by apply (Hsaved false)].
           ++ split; [done|]. split; [by left|]. rewrite Hg. by apply Hkept.
           ++ split; [done|]. split; [by left|]. rewrite Hg. by apply Hkept.
        -- destruct Hrun as [Hs Hch]. split; [done|].
           split; [right; eexists _, _; split; [exact Hch|reflexivity]|].
           rewrite script_getLastState_saveState. first [by apply (Hsaved true)|by apply (Hsaved false)].
    + rewrite bool_decide_eq_false_2 in Hrun by done.
      destruct (truthyStr (Script.NTFY_TOPIC env)); simpl.
      * destruct Hrun as [Hs Hch]. unfold Script.postChecked. simpl.
        destruct (answers 0%nat) as [[|] sl|e]; simpl in *.
        -- split; [done|]. split; [right; eexists _, _; split; [exact Hch|reflexivity]|].
           rewrite script_getLastState_saveState. first [by apply (Hsaved true)|by apply (Hsaved false)].
        -- split; [done|]. split; [by left|]. rewrite Hg. by apply Hkept.
        -- split; [done|]. split; [by left|]. rewrite Hg. by apply Hkept.
      * destruct Hrun as [Hs Hch]. split; [done|].
        split; [right; eexists _, _; split; [exact Hch|reflexivity]|].
        rewrite script_getLastState_saveState. first [by apply (Hsaved true)|by apply (Hsaved false)].
  - destruct Hcheck as (e & Hp). rewrite Hp in Hrun. destruct Hrun as [Hch Hs].
    simpl. split; [done|]. split; [by left|].
    by rewrite (getLastState_checks _ _ _ Hch).
Qed.

Lemma engine_matches_sportivo_script_witness :
  sentBy (outOf (runCheck alerts
                   (mkTick (sportivoCheck (PageResponse true "200 OK" (Normal openPage)))
                      ntfyUp 60)
                   sportivoMonitor seenClosed))
  = (SportivoScript.runCheck scriptEnv (PageResponse true "200 OK" (Normal openPage))
       ntfyUp 60 scriptClosed).2.
Proof.
  apply (engine_matches_sportivo_script scriptEnv alerts
           (PageResponse true "200 OK" (Normal openPage)) ntfyUp 60 seenClosed
           scriptClosed); vm_compute; reflexivity.
Defined.

(** X23.  With [FORCE_STATE] set the sportivo script does not look at the
    page: whatever the page answers, the call does the same, and a record it
    appends carries the forced state. *)
Theorem sportivo_script_forced_state (env : Script.Env) (page page' : PageOutcome)
    (answers : nat → FetchOutcome) (t : Z) (rows : list Script.Row) (forced : string) :
  Script.FORCE_STATE env = Some forced →
  forced ≠ EmptyString →
  SportivoScript.runCheck env page answers t rows
  = SportivoScript.runCheck env page' answers t rows
  ∧ ((SportivoScript.runCheck env page answers t rows).1 = rows
     ∨ ∃ notified,
         (SportivoScript.runCheck env page answers t rows).1
         = rows ++ [Script.mkRow (Script.nextId rows) forced t notified]).
Proof.
  intros Hf Hne.
  assert (Hc : ∀ p, SportivoScript.checkRegistration env p = Normal forced).
  { intros p. unfold SportivoScript.checkRegistration. rewrite Hf. simpl.
    destruct (String.eqb_spec forced EmptyString); done. }
  unfold SportivoScript.runCheck. rewrite !Hc. split; [done|].
  unfold SportivoScript.notify, SportivoScript.sendTestNotification,
    Script.postChecked, Script.postUnchecked, Script.saveState.
  destruct (Script.getLastState rows) as [previous|];
    repeat case_bool_decide; simpl;
    destruct (truthyStr (Script.NTFY_TOPIC env)), (Script.TEST_MODE env); simpl;
    destruct (answers 0%nat) as [[|] sl|e]; simpl; eauto.
Qed.

Lemma sportivo_script_forced_state_witness :
  SportivoScript.runCheck forcedOpen (PageRejected "offline") ntfyUp 60 scriptClosed
  = SportivoScript.runCheck forcedOpen (PageResponse true "200 OK" (Normal openPage))
      ntfyUp 60 scriptClosed.
Proof.
  apply (sportivo_script_forced_state forcedOpen (PageRejected "offline")
           (PageResponse true "200 OK" (Normal openPage)) ntfyUp 60 scriptClosed "open");
    [reflexivity | discriminate].
Defined.

(** ** The bookero script *)

(** What the script takes for the state is what the check of the monitor
    returns. *)
Lemma bookero_check_script env month0 month1 :
  truthyStr (Script.FORCE_STATE env) = false →
  match BookeroScript.checkAvailability env month0 month1 with
  | Normal a =>
      ∃ result, bookeroCheck month0 month1 = Returned result
                ∧ state result = BookeroScript.a_state a
  | Abrupt e => bookeroCheck month0 month1 = Failed e
  end.
Proof.
  intros Hf. unfold BookeroScript.checkAvailability, bookeroCheck. rewrite Hf.
  destruct (fetchMonth month0); [|done].
  destruct (fetchMonth month1); [|done].
  eexists. split; [reflexivity|done].
Qed.

(** Priority and tags of the notifications of the bookero monitor are those
    of the script. *)
Lemma bookero_notification_script result a previous :
  state result = BookeroScript.a_state a →
  priority (notification bookeroMonitor result previous)
  = priority (BookeroScript.notification a previous)
  ∧ tags (notification bookeroMonitor result previous)
    = tags (BookeroScript.notification a previous).
Proof.
  intros Hs. unfold BookeroScript.notification. simpl. rewrite Hs.
  by case_bool_decide.
Qed.

Lemma getLastState_insertStreak now db m m' :
  getLastState (insertStreak now db m) m' = getLastState db m'.
Proof. reflexivity. Qed.

Lemma getLastState_markStreakNotified db m m' :
  getLastState (markStreakNotified db m) m' = getLastState db m'.
Proof. reflexivity. Qed.

Ltac script_norm :=
  cbn beta iota zeta delta
    [Script.sent_answer Script.sent_topic Script.sent_body Script.sent_click
     Script.NTFY_TOPIC BookeroScript.s_checks BookeroScript.s_streak
     length fst snd].

Ltac exec_both :=
  name_run; unfold_run; run_norm; script_norm;
  repeat (inner_match; run_norm; script_norm); intros [= <- <- <-].

(** X24.  The engine with the bookero monitor keeps the books of the
    bookero script.  With the same [NTFY_TOPIC], no debug topic, [TEST_MODE]
    and [FORCE_STATE] off, the same streak and the same last state in both
    databases, and ntfy.sh not answering the first POST with an error
    status: on the same answers of the API and of ntfy.sh both end the same
    way, POST to the same topic with the same priority and tags, leave the
    same streak and the same last state, and the engine appends a record
    exactly when the script does, with the same state, time and
    [notified]. *)
Theorem engine_matches_bookero_script (env : Script.Env) (cfg : Config)
    (month0 month1 : MonthOutcome) (answers : nat → FetchOutcome) (t : Z)
    (db : Database) (s : BookeroScript.Store) :
  NTFY_TOPIC cfg = Script.NTFY_TOPIC env →
  truthyStr (NTFY_DEBUG_TOPIC cfg) = false →
  Script.TEST_MODE env = false →
  truthyStr (Script.FORCE_STATE env) = false →
  noErrorStatus (answers 0%nat) = true →
  selectStreak db "bookero" = BookeroScript.s_streak s →
  getLastState db "bookero" = Script.getLastState (BookeroScript.s_checks s) →
  completionOf (runCheck cfg (mkTick (bookeroCheck month0 month1) answers t)
                  bookeroMonitor db)
  = (BookeroScript.runCheck env month0 month1 answers t s).1.1
  ∧ outline (sentBy (outOf (runCheck cfg (mkTick (bookeroCheck month0 month1) answers t)
                              bookeroMonitor db)))
    = outline (BookeroScript.runCheck env month0 month1 answers t s).2
  ∧ selectStreak (dbAfter (runCheck cfg (mkTick (bookeroCheck month0 month1) answers t)
                             bookeroMonitor db)) "bookero"
    = BookeroScript.s_streak (BookeroScript.runCheck env month0 month1 answers t s).1.2
  ∧ getLastState (dbAfter (runCheck cfg (mkTick (bookeroCheck month0 month1) answers t)
                             bookeroMonitor db)) "bookero"
    = Script.getLastState
        (BookeroScript.s_checks
           (BookeroScript.runCheck env month0 month1 answers t s).1.2)
  ∧ ((checks (dbAfter (runCheck cfg (mkTick (bookeroCheck month0 month1) answers t)
                         bookeroMonitor db)) = checks db
      ∧ BookeroScript.s_checks
          (BookeroScript.runCheck env month0 month1 answers t s).1.2
        = BookeroScript.s_checks s)
     ∨ ∃ st notified,
         checks (dbAfter (runCheck cfg (mkTick (bookeroCheck month0 month1) answers t)
                            bookeroMonitor db))
         = checks db ++ [mkCheckRow (nextId (checks db)) "bookero" st t notified]
         ∧ BookeroScript.s_checks
             (BookeroScript.runCheck env month0 month1 answers t s).1.2
           = BookeroScript.s_checks s
             ++ [Script.mkRow (Script.nextId (BookeroScript.s_checks s)) st t notified]).
Proof.
  intros Htopic Hdebug Htest Hforce Hno Hstreak Hlast.
  pose proof (bookero_check_script env month0 month1 Hforce) as Hcheck.
  destruct (BookeroScript.runCheck env month0 month1 answers t s)
    as [[c' s'] sent'] eqn:ES.
  revert Hno. revert ES.
  unfold BookeroScript.runCheck, BookeroScript.checkAndCompare,
    BookeroScript.trackError, BookeroScript.notify, BookeroScript.notifyError,
    BookeroScript.notifyRecovery, Script.postChecked, Script.postUnchecked.
  rewrite Htest. clear Htest Hforce.
  destruct cfg as [tp dbg], env as [tp' tm fs], s as [rows streak].
  simpl in Htopic, Hdebug, Hstreak, Hlast. subst tp'.
  script_norm.
  change "bookero" with (name bookeroMonitor) in *.
  rewrite <- Hstreak, <- Hlast. clear Hstreak.
  destruct (BookeroScript.checkAvailability _ month0 month1) as [a|e0].
  - destruct Hcheck as (result & -> & Hst).
    pose proof (λ previous, bookero_notification_script result a previous Hst) as Hn.
    rewrite <- Hst. clear Hst.
    generalize dependent bookeroMonitor. intros monitor Hlast Hn.
    exec_both.
    all: intros [= <- <- <-] Hno; simpl in Hno; try discriminate Hno; script_norm.
    all: try (match goal with H : truthy _ = _ |- _ => by cbv in H end).
    all: split; [done|].
    all: split;
      [unfold outline, sentBy; simpl;
       rewrite ?(proj1 (Hn _)), ?(proj2 (Hn _)); reflexivity|].
    all: split;
      [simpl; rewrite ?lookup_delete_eq, ?lookup_insert_eq, ?lookup_alter_eq;
       try done;
       match goal with H : error_streak _ !! _ = _ |- _ => by rewrite H end|].
    all: split;
      [rewrite ?getLastState_saveState_eq, ?getLastState_insertStreak,
         ?getLastState_markStreakNotified, ?getLastState_deleteStreak,
         ?script_getLastState_saveState; congruence|].
    all: first [by left | right; eexists _, _; split; reflexivity].
  - rewrite Hcheck. clear Hcheck.
    generalize dependent bookeroMonitor. intros monitor Hlast.
    exec_both.
    all: intros [= <- <- <-] Hno; simpl in Hno; try discriminate Hno; script_norm.
    all: try (match goal with H : truthy _ = _ |- _ => by cbv in H end).
    all: split; [done|].
    all: split; [reflexivity|].
    all: split;
      [simpl; rewrite ?lookup_delete_eq, ?lookup_insert_eq, ?lookup_alter_eq;
       try done;
       match goal with H : error_streak _ !! _ = _ |- _ => by rewrite H end|].
    all: split;
      [rewrite ?getLastState_saveState_eq, ?getLastState_insertStreak,
         ?getLastState_markStreakNotified, ?getLastState_deleteStreak,
         ?script_getLastState_saveState; congruence|].
    all: by left.
Qed.

Lemma engine_matches_bookero_script_witness :
  outline (sentBy (outOf (runCheck alerts
                            (mkTick (bookeroCheck monthDown monthWithoutDays) ntfyUp 900)
                            bookeroMonitor openStreak)))
  = outline (BookeroScript.runCheck scriptEnv monthDown monthWithoutDays ntfyUp 900
               scriptOpenStreak).2
  ∧ selectStreak (dbAfter (runCheck alerts
                             (mkTick (bookeroCheck monthDown monthWithoutDays) ntfyUp 900)
                             bookeroMonitor openStreak)) "bookero"
    = BookeroScript.s_streak
        (BookeroScript.runCheck scriptEnv monthDown monthWithoutDays ntfyUp 900
           scriptOpenStreak).1.2.
Proof.
  destruct (engine_matches_bookero_script scriptEnv alerts monthDown monthWithoutDays
              ntfyUp 900 openStreak scriptOpenStreak) as (_ & H2 & H3 & _);
    [reflexivity | reflexivity | reflexivity | reflexivity | reflexivity
     | vm_compute; reflexivity | vm_compute; reflexivity |].
  split; [exact H2 | exact H3].
Defined.

(** X25.  Where the engine and the bookero script part: an error status of
    ntfy.sh on the alert of an overdue streak.  The script does not look at
    the response of its alerts, so it marks the streak as notified and ends
    normally; the engine throws out of [runCheck] and leaves the streak
    unmarked, so that the alert is sent again on the next failing tick. *)
Theorem bookero_script_alert_ignores_status (env : Script.Env) (cfg : Config)
    (month0 month1 : MonthOutcome) (answers : nat → FetchOutcome) (t : Z)
    (db : Database) (s : BookeroScript.Store) (streak : StreakRow)
    (e statusLine : string) :
  NTFY_TOPIC cfg = Script.NTFY_TOPIC env →
  truthyStr (Script.NTFY_TOPIC env) = true →
  truthyStr (Script.FORCE_STATE env) = false →
  bookeroCheck month0 month1 = Failed e →
  selectStreak db "bookero" = Some streak →
  BookeroScript.s_streak s = Some streak →
  truthy (streak_notified streak) = false →
  900 ≤ t - started_at streak →
  answers 0%nat = Responded false statusLine →
  ((BookeroScript.runCheck env month0 month1 answers t s).1.1 = Normal tt
   ∧ BookeroScript.s_streak (BookeroScript.runCheck env month0 month1 answers t s).1.2
     = Some (mkStreakRow (started_at streak) 1))
  ∧ (completionOf (runCheck cfg (mkTick (bookeroCheck month0 month1) answers t)
                     bookeroMonitor db)
     = Abrupt ("ntfy error: " +:+ statusLine)
     ∧ selectStreak (dbAfter (runCheck cfg (mkTick (bookeroCheck month0 month1)
                                              answers t) bookeroMonitor db)) "bookero"
       = Some streak).
Proof.
  intros Htopic Ht Hforce Hp Hdb Hs Hn Hdue Ha.
  assert ((started_at streak <=? t - 900) = true) as Hdue' by (apply Z.leb_le; lia).
  split.
  - pose proof (bookero_check_script env month0 month1 Hforce) as Hcheck.
    unfold BookeroScript.runCheck, BookeroScript.checkAndCompare,
      BookeroScript.trackError, BookeroScript.notifyError, Script.postUnchecked.
    destruct (BookeroScript.checkAvailability env month0 month1) as [a|e'].
    + destruct Hcheck as (result & Hr & _). congruence.
    + simpl. rewrite Hs, Hn, Hdue', Ht. simpl. by rewrite Ha.
  - rewrite Hp. destruct cfg as [tp dbg]. simpl in Htopic. subst tp.
    change "bookero" with (name bookeroMonitor) in *.
    unfold selectStreak in Hdb.
    generalize dependent bookeroMonitor. intros monitor Hdb.
    exec_run; try done.
    all: match goal with H : truthy _ = _ |- _ => by cbv in H end.
Qed.

Lemma bookero_script_alert_ignores_status_witness :
  BookeroScript.s_streak
    (BookeroScript.runCheck scriptEnv monthDown monthWithoutDays ntfyDown 900
       scriptOpenStreak).1.2
  = Some (mkStreakRow 0 1)
  ∧ selectStreak
      (dbAfter (runCheck alerts
                  (mkTick (bookeroCheck monthDown monthWithoutDays) ntfyDown 900)
                  bookeroMonitor openStreak)) "bookero"
    = Some (mkStreakRow 0 0).
Proof.
  destruct (bookero_script_alert_ignores_status scriptEnv alerts monthDown
              monthWithoutDays ntfyDown 900 openStreak scriptOpenStreak
              (mkStreakRow 0 0) "The operation timed out." "503 Service Unavailable")
    as [[_ H1] [_ H2]];
    [reflexivity | reflexivity | reflexivity | reflexivity | vm_compute; reflexivity
     | reflexivity | reflexivity | simpl; lia | reflexivity |].
  split; [exact H1 | exact H2].
Defined.
